(** * Menu data cleanup

    A shallow embedding of [scripts/clean-menu-data.py]: the classifier
    [should_remove], the per-file filter loop and the report / SQL writer of
    [process_files], together with the properties the specification states
    about them.

    Conventions of the model.
    - A Python [str] is a [string] holding its UTF-8 encoding.  All patterns
      the script searches for or replaces are ASCII, so substring tests and
      single-quote replacement agree on code points and on UTF-8 bytes.
    - A value returned by [json.load] is a [json].  Objects are association
      lists in document order.  JSON numbers with a fraction or an exponent
      (Python floats) are outside the model; the data model gives calories as
      an integer.
    - Python built-ins whose full definition lives in the interpreter
      ([str.lower], [repr] of containers, [json.load], [json.dump]) are the
      fields of the class [Python]; every theorem holds for any
      implementation of them.
    - An uncaught exception is a [Raise]; the world (file system and
      standard output) reached when it is raised is kept.
    - The exceptions of the model are the ones the data can cause: a failed
      [json.load], a wrong type, a missing key, a missing file.  Printing,
      opening a file for writing and writing to it are taken to succeed: a run
      that an output failure stops (an unwritable file, a string the output
      encoding refuses), and what such a run leaves on the disk, is outside
      the model. *)

From Stdlib Require Import ZArith String Ascii List DecimalString Lia.
From stdpp Require Import gmap strings list fin_maps.
Import ListNotations.

(** ** JSON values and Python exceptions *)

#[warnings="-register-all"]
Inductive json : Type :=
| JNull
| JBool (b : bool)
| JInt (z : Z)
| JStr (s : string)
| JArr (l : list json)
| JObj (d : list (string * json)).

(** [LoadError] stands for whatever [json.load] raises on a text it does not
    load: [JSONDecodeError], and also [UnicodeDecodeError], a plain
    [ValueError] or [RecursionError] from the decoder.  [FileNotFoundError]
    is [open] on a path that is not a file of the disk. *)
Inductive exn : Type :=
| KeyError (key : string)
| AttributeError
| TypeError
| LoadError
| FileNotFoundError.

Inductive result (A : Type) : Type :=
| Ok (a : A)
| Raise (e : exn).

Arguments Ok {A} a.
Arguments Raise {A} e.

Definition bind_result {A B : Type} (r : result A) (k : A -> result B) : result B :=
  match r with
  | Ok a => k a
  | Raise e => Raise e
  end.

Declare Scope result_scope.
Delimit Scope result_scope with R.
Notation "x <- e ;; k" := (bind_result e (fun x => k))
  (at level 100, e at next level, right associativity) : result_scope.

(** The interpreter's own functions. *)
Class Python : Type := {
  (** [s.lower()] *)
  str_lower : string -> string;
  (** [repr(v)] for a list or a dict, as an f-string prints it *)
  py_repr : json -> string;
  (** [json.load] on the text of a file; [None] when it raises *)
  json_load : string -> option json;
  (** the text that [json.dump(data, f, indent=4, ensure_ascii=False)] writes
      for a loaded document *)
  json_dump : json -> string
}.

(** ** Strings *)

(** [str(n)] for an [int]. *)
Definition decimal (z : Z) : string := NilZero.string_of_int (Z.to_int z).

(** [s.startswith(pat)] *)
Fixpoint str_prefix (pat s : string) : bool :=
  match pat with
  | EmptyString => true
  | String c pat' =>
      match s with
      | EmptyString => false
      | String c' s' => Ascii.eqb c c' && str_prefix pat' s'
      end
  end.

(** [pat in s] *)
Fixpoint str_contains (pat s : string) : bool :=
  str_prefix pat s ||
  match s with
  | EmptyString => false
  | String _ s' => str_contains pat s'
  end.

(** [pat] occurs in [s] as a contiguous substring. *)
Definition is_substring (pat s : string) : Prop :=
  exists pre post : string, s = pre +:+ pat +:+ post.

(** [c * n] for a one-character string. *)
Fixpoint str_repeat (c : ascii) (n : nat) : string :=
  match n with
  | O => EmptyString
  | S n' => String c (str_repeat c n')
  end.

(** [s.replace(old, new)]: occurrences of [old] are found left to right and do
    not overlap.  [skip] counts the characters of the occurrence just replaced
    that are still to be passed over. *)
Fixpoint replace_from (old new : string) (skip : nat) (s : string) : string :=
  match s with
  | EmptyString => EmptyString
  | String c s' =>
      match skip with
      | S k => replace_from old new k s'
      | O =>
          if str_prefix old s
          then new +:+ replace_from old new (String.length old - 1) s'
          else String c (replace_from old new 0 s')
      end
  end.

(** With an empty [old], Python puts [new] before every character and at the
    end. *)
Fixpoint intersperse_all (new s : string) : string :=
  match s with
  | EmptyString => new
  | String c s' => new +:+ String c (intersperse_all new s')
  end.

Definition str_replace (old new s : string) : string :=
  match old with
  | EmptyString => intersperse_all new s
  | String _ _ => replace_from old new 0 s
  end.

(** [sep.join(parts)] *)
Fixpoint str_join (sep : string) (parts : list string) : string :=
  match parts with
  | [] => EmptyString
  | [p] => p
  | p :: rest => p +:+ sep +:+ str_join sep rest
  end.

(** [os.path.basename]: what follows the last slash. *)
Fixpoint basename (path : string) : string :=
  match path with
  | EmptyString => EmptyString
  | String c rest =>
      if str_contains "/" rest then basename rest
      else if Ascii.eqb c "/" then rest else path
  end.

(** ** Python operations on JSON values *)

Fixpoint dict_lookup (k : string) (d : list (string * json)) : option json :=
  match d with
  | [] => None
  | (k', v) :: d' => if String.eqb k k' then Some v else dict_lookup k d'
  end.

(** [d[k] = v]: an existing key keeps its place, a new one goes last. *)
Fixpoint dict_set (k : string) (v : json) (d : list (string * json))
  : list (string * json) :=
  match d with
  | [] => [(k, v)]
  | (k', v') :: d' =>
      if String.eqb k k' then (k, v) :: d' else (k', v') :: dict_set k v d'
  end.

(** [d.get(k, default)] on a dict. *)
Definition dict_get (d : list (string * json)) (k : string) (default : json) : json :=
  match dict_lookup k d with
  | Some v => v
  | None => default
  end.

(** [obj.get(k, default)]; only a dict has [get]. *)
Definition py_get (obj : json) (k : string) (default : json) : result json :=
  match obj with
  | JObj d => Ok (dict_get d k default)
  | _ => Raise AttributeError
  end.

(** [obj[k]] for a string key [k]. *)
Definition py_getitem (obj : json) (k : string) : result json :=
  match obj with
  | JObj d =>
      match dict_lookup k d with
      | Some v => Ok v
      | None => Raise (KeyError k)
      end
  | _ => Raise TypeError
  end.

(** [v.replace(old, new)]; only a str has [replace]. *)
Definition py_replace (v : json) (old new : string) : result string :=
  match v with
  | JStr s => Ok (str_replace old new s)
  | _ => Raise AttributeError
  end.

(** [v <= n] for an int [n]; [bool] is a subclass of [int]. *)
Definition py_le_int (v : json) (n : Z) : result bool :=
  match v with
  | JInt z => Ok (z <=? n)%Z
  | JBool b => Ok ((if b then 1 else 0) <=? n)%Z
  | _ => Raise TypeError
  end.

(** [len(v)].  A str is counted in bytes here; the script never prints the
    length of a str, since a non-empty one makes the item loop raise. *)
Definition py_len (v : json) : result nat :=
  match v with
  | JArr l => Ok (length l)
  | JObj d => Ok (length d)
  | JStr s => Ok (String.length s)
  | _ => Raise TypeError
  end.

(** The elements [for x in v] visits: the members of a list, the keys of a
    dict, the characters of a str (split here by byte: every element is a str
    either way, and only that matters to the loop body). *)
Definition py_iter (v : json) : result (list json) :=
  match v with
  | JArr l => Ok l
  | JObj d => Ok (map (fun kv => JStr (fst kv)) d)
  | JStr s => Ok (map (fun c => JStr (String c EmptyString)) (list_ascii_of_string s))
  | _ => Raise TypeError
  end.

Section Classifier.
Context `{Python}.

(** [v.lower()]; only a str has [lower]. *)
Definition py_lower (v : json) : result string :=
  match v with
  | JStr s => Ok (str_lower s)
  | _ => Raise AttributeError
  end.

(** [f"{v}"] *)
Definition py_str (v : json) : string :=
  match v with
  | JNull => "None"
  | JBool true => "True"
  | JBool false => "False"
  | JInt z => decimal z
  | JStr s => s
  | JArr _ | JObj _ => py_repr v
  end.

(** ** The classifier *)

Definition CALORIE_THRESHOLD : Z := 100.

Definition kids_patterns : list string :=
  ["kid's"; "kids"; "kid "; "children"; "kiddie"].

(** The [for pattern in kids_patterns] loop of [should_remove]: [Some] is its
    early return, [None] is falling out of the loop. *)
Fixpoint kids_loop (patterns : list string) (name category : string)
    (calories : json) : option (bool * string) :=
  match patterns with
  | [] => None
  | pattern :: rest =>
      if str_contains pattern name || str_contains pattern category
      then Some (true, "kids_item (cal=" +:+ py_str calories +:+ ")")
      else kids_loop rest name category calories
  end.

Definition should_remove (item : json) : result (bool * string) :=
  (name_v <- py_get item "name" (JStr "") ;;
   name <- py_lower name_v ;;
   category_v <- py_get item "category" (JStr "") ;;
   category <- py_lower category_v ;;
   macros <- py_get item "macros" (JObj []) ;;
   calories <- py_get macros "calories" (JInt 999) ;;
   match kids_loop kids_patterns name category calories with
   | Some r => Ok r
   | None =>
       low <- py_le_int calories CALORIE_THRESHOLD ;;
       if low
       then Ok (true, "low_cal (" +:+ py_str calories +:+ " cal)")
       else Ok (false, "")
   end)%R.

End Classifier.

(** ** The world the script runs in *)

(** Files by path, and what has been printed: one entry per [print] call,
    each followed by a newline on the real stream. *)
Record world : Type := World {
  fs : gmap string string;
  stdout : list string
}.

(** A computation that reads and changes the world and may raise. *)
Definition M (A : Type) : Type := world -> world * result A.

Definition ret {A : Type} (a : A) : M A := fun w => (w, Ok a).

Definition bind {A B : Type} (m : M A) (k : A -> M B) : M B :=
  fun w =>
    match m w with
    | (w', Ok a) => k a w'
    | (w', Raise e) => (w', Raise e)
    end.

Definition lift {A : Type} (r : result A) : M A := fun w => (w, r).

Declare Scope io_scope.
Delimit Scope io_scope with IO.
Notation "x <- e ;; k" := (bind e (fun x => k))
  (at level 100, e at next level, right associativity) : io_scope.
Notation "e ;; k" := (bind e (fun _ => k))
  (at level 100, k at level 200, right associativity) : io_scope.

Definition nl : string := String (ascii_of_nat 10) EmptyString.

Definition bytes (l : list nat) : string :=
  string_of_list_ascii (map ascii_of_nat l).

(** [print(s)], on a standard output that takes the string. *)
Definition print (s : string) : M unit :=
  fun w => (World (fs w) (stdout w ++ [s]), Ok tt).

(** The character stream behind [stdout]. *)
Definition stream (lines : list string) : string :=
  fold_right (fun l acc => l +:+ nl +:+ acc) EmptyString lines.

(** [open(path, 'r')] followed by reading the whole file. *)
Definition read_text (path : string) : M string :=
  fun w =>
    match fs w !! path with
    | Some text => (w, Ok text)
    | None => (w, Raise FileNotFoundError)
    end.

(** [open(path, 'w')] on a path that can be written: the file is created or
    truncated. *)
Definition open_w (path : string) : M unit :=
  fun w => (World (<[path := EmptyString]> (fs w)) (stdout w), Ok tt).

(** [f.write(s)] on a file opened for writing, when the write goes through. *)
Definition f_write (path s : string) : M unit :=
  fun w =>
    (World (<[path := default EmptyString (fs w !! path) +:+ s]> (fs w)) (stdout w),
     Ok tt).

(** ** Removal records *)

Record removal : Type := Removal {
  restaurant_name : json;
  name : json;
  reason : string
}.

(** ['--apply' in sys.argv] *)
Definition APPLY (argv : list string) : bool :=
  existsb (String.eqb "--apply") argv.

(** [data[k] = v]; reached only with a dict. *)
Definition py_setitem (obj : json) (k : string) (v : json) : result json :=
  match obj with
  | JObj d => Ok (JObj (dict_set k v d))
  | _ => Raise TypeError
  end.

(** Truth value of a list. *)
Definition nonempty {A : Type} (l : list A) : bool :=
  match l with
  | [] => false
  | _ :: _ => true
  end.

Definition nat_str (n : nat) : string := decimal (Z.of_nat n).

Section Script.
Context `{Python}.

(** ** The per-file loop of [process_files] *)

(** [for item in items] with its three accumulators: [kept], [removed] and the
    run-wide [all_removed_items]. *)
Fixpoint items_loop (restaurant : json) (items kept : list json)
    (removed : list (json * string)) (all_removed_items : list removal)
  : result (list json * list (json * string) * list removal) :=
  match items with
  | [] => Ok (kept, removed, all_removed_items)
  | item :: rest =>
      (r <- should_remove item ;;
       let '(remove, reason) := r in
       if remove : bool
       then
         item_name <- py_getitem item "name" ;;
         items_loop restaurant rest kept (removed ++ [(item, reason)])
           (all_removed_items ++ [Removal restaurant item_name reason])
       else
         items_loop restaurant rest (kept ++ [item]) removed all_removed_items)%R
  end.

Definition glyph_cross : string := bytes [195; 162; 197; 147; 226; 128; 148].
Definition glyph_arrow : string := bytes [195; 162; 226; 128; 160; 226; 128; 153].
Definition glyph_check : string := bytes [195; 162; 197; 147; 226; 128; 166].
Definition glyph_warning : string :=
  bytes [195; 162; 197; 161; 194; 160; 195; 175; 194; 184].
Definition glyph_dash : string := bytes [195; 162; 226; 130; 172; 226; 128; 157].
Definition glyph_page : string :=
  bytes [195; 176; 197; 184; 226; 128; 156; 226; 128; 158].

(** [for item, reason in removed]: one report line per removed item. *)
Fixpoint print_removed (removed : list (json * string)) : M unit :=
  match removed with
  | [] => ret tt
  | (item, reason) :: rest =>
      (macros <- lift (py_get item "macros" (JObj [])) ;;
       cal <- lift (py_get macros "calories" (JStr "?")) ;;
       item_name <- lift (py_getitem item "name") ;;
       category <- lift (py_get item "category" (JStr "")) ;;
       print ("    " +:+ glyph_cross +:+ " [" +:+ py_str cal +:+ " cal] "
              +:+ py_str item_name +:+ " (" +:+ py_str category +:+ ") "
              +:+ glyph_arrow +:+ " " +:+ reason) ;;
       print_removed rest)%IO
  end.

(** The body of [for filepath in files]; [acc] holds [total_removed],
    [total_kept] and [all_removed_items].  What can raise here is the loading
    and the reading of the data, lines 56 to 76; the prints and the write of
    lines 78 to 92 are the ones that go through. *)
Definition file_body (apply : bool) (filepath : string)
    (acc : nat * nat * list removal) : M (nat * nat * list removal) :=
  let '(total_removed, total_kept, all_removed_items) := acc in
  (text <- read_text filepath ;;
   data <- lift (match json_load text with
                 | Some d => Ok d
                 | None => Raise LoadError
                 end) ;;
   restaurant <- lift (py_get data "restaurant_name" (JStr (basename filepath))) ;;
   items <- lift (py_get data "items" (JArr [])) ;;
   original_count <- lift (py_len items) ;;
   elements <- lift (py_iter items) ;;
   r <- lift (items_loop restaurant elements [] [] all_removed_items) ;;
   let '(kept, removed, all_removed_items') := r in
   (if nonempty removed
    then
      print (nl +:+ "--- " +:+ py_str restaurant +:+ " (" +:+ basename filepath
             +:+ ") ---") ;;
      print ("    Original: " +:+ nat_str original_count +:+ " | Removing: "
             +:+ nat_str (length removed) +:+ " | Keeping: "
             +:+ nat_str (length kept)) ;;
      print_removed removed
    else ret tt) ;;
   (if apply && nonempty removed
    then
      data' <- lift (py_setitem data "items" (JArr kept)) ;;
      open_w filepath ;;
      f_write filepath (json_dump data') ;;
      print ("    " +:+ glyph_check +:+ " File updated!")
    else ret tt) ;;
   ret (total_removed + length removed, total_kept + length kept,
        all_removed_items'))%IO.

Fixpoint files_loop (apply : bool) (files : list string)
    (acc : nat * nat * list removal) : M (nat * nat * list removal) :=
  match files with
  | [] => ret acc
  | filepath :: rest =>
      (acc' <- file_body apply filepath acc ;; files_loop apply rest acc')%IO
  end.

(** ** The summary and the SQL *)

Definition rule : string := str_repeat "=" 70.

(** [for item in kids_items]: the conditions of the kids DELETE. *)
Fixpoint conditions_loop (kids_items : list removal) (conditions : list string)
  : result (list string) :=
  match kids_items with
  | [] => Ok conditions
  | item :: rest =>
      (escaped_name <- py_replace (name item) "'" "''" ;;
       escaped_restaurant <- py_replace (restaurant_name item) "'" "''" ;;
       conditions_loop rest
         (conditions ++ ["  (restaurant_name = '" +:+ escaped_restaurant
                         +:+ "' AND name = '" +:+ escaped_name +:+ "')"]))%R
  end.

(** [[i for i in all_removed_items if 'kids_item' in i['reason']]] *)
Definition kids_of (all_removed_items : list removal) : list removal :=
  List.filter (fun i => str_contains "kids_item" (reason i)) all_removed_items.

(** Lines 94 to 110: totals, the dry-run notice and the SQL heading. *)
Definition print_summary (apply : bool) (total_removed total_kept : nat) : M unit :=
  (print (nl +:+ rule) ;;
   print "SUMMARY" ;;
   print rule ;;
   print ("Total items removed: " +:+ nat_str total_removed) ;;
   print ("Total items kept:    " +:+ nat_str total_kept) ;;
   (if negb apply
    then
      print (nl +:+ glyph_warning +:+ "  DRY RUN " +:+ glyph_dash
             +:+ " No files were modified.") ;;
      print "    Run with --apply to modify JSON files:" ;;
      print "    python3 scripts/clean-menu-data.py --apply"
    else ret tt) ;;
   print (nl +:+ rule) ;;
   print "SQL TO DELETE FROM DATABASE" ;;
   print rule ;;
   print "-- Run this in Supabase SQL Editor to remove these items from menu_items table" ;;
   print "")%IO.

(** Lines 113 to 135: the SQL on the console. *)
Definition print_sql (kids_items : list removal) : M unit :=
  (print "-- Delete kids menu items" ;;
   (if nonempty kids_items
    then
      print "DELETE FROM menu_items WHERE" ;;
      conditions <- lift (conditions_loop kids_items []) ;;
      print (str_join (" OR" +:+ nl) conditions) ;;
      print ";"
    else print "-- No kids items found") ;;
   print "" ;;
   print "-- Delete low calorie / single ingredient items (<=100 cal)" ;;
   print "DELETE FROM menu_items" ;;
   print ("WHERE (macros->>'calories')::int <= " +:+ decimal CALORIE_THRESHOLD +:+ ";") ;;
   print "" ;;
   print "-- Verify: Count remaining items" ;;
   print "SELECT COUNT(*) as remaining_items FROM menu_items;" ;;
   print "")%IO.

(** Lines 138 to 160: the same statements written to [sql_file]. *)
Definition write_sql (sql_file : string) (total_removed : nat)
    (kids_items : list removal) : M unit :=
  (open_w sql_file ;;
   f_write sql_file ("-- AUTO-GENERATED: Cleanup script for menu_items table" +:+ nl) ;;
   f_write sql_file ("-- Generated by clean-menu-data.py" +:+ nl) ;;
   f_write sql_file ("-- Items to remove: " +:+ nat_str total_removed +:+ nl +:+ nl) ;;
   f_write sql_file ("-- Step 1: Delete kids menu items by name" +:+ nl) ;;
   (if nonempty kids_items
    then
      f_write sql_file ("DELETE FROM menu_items WHERE" +:+ nl) ;;
      conditions <- lift (conditions_loop kids_items []) ;;
      f_write sql_file (str_join (" OR" +:+ nl) conditions) ;;
      f_write sql_file (";" +:+ nl +:+ nl)
    else ret tt) ;;
   f_write sql_file ("-- Step 2: Delete all items with calories <= "
                     +:+ decimal CALORIE_THRESHOLD +:+ nl) ;;
   f_write sql_file ("DELETE FROM menu_items" +:+ nl) ;;
   f_write sql_file ("WHERE (macros->>'calories')::int <= "
                     +:+ decimal CALORIE_THRESHOLD +:+ ";" +:+ nl +:+ nl) ;;
   f_write sql_file ("-- Step 3: Verify remaining count" +:+ nl) ;;
   f_write sql_file ("SELECT COUNT(*) as remaining_items FROM menu_items;" +:+ nl))%IO.

(** Everything after the file loop. *)
Definition report (apply : bool) (sql_file : string)
    (acc : nat * nat * list removal) : M unit :=
  let '(total_removed, total_kept, all_removed_items) := acc in
  (print_summary apply total_removed total_kept ;;
   print_sql (kids_of all_removed_items) ;;
   write_sql sql_file total_removed (kids_of all_removed_items) ;;
   print (glyph_page +:+ " SQL also saved to: cleanup_menu_items.sql"))%IO.

(** [process_files]: [files] is [sorted(glob.glob(DATA_DIR/*_raw.json))] and
    [sql_file] the path of [cleanup_menu_items.sql] in the repository root. *)
Definition process_files (argv files : list string) (sql_file : string) : M unit :=
  (print rule ;;
   print ("MENU DATA CLEANUP "
          +:+ (if negb (APPLY argv) then "(DRY RUN)" else "(APPLYING CHANGES)")) ;;
   print rule ;;
   print ("Calorie threshold: <= " +:+ decimal CALORIE_THRESHOLD) ;;
   print ("Files to process: " +:+ nat_str (length files)) ;;
   print "" ;;
   acc <- files_loop (APPLY argv) files (0, 0, []) ;;
   report (APPLY argv) sql_file acc)%IO.

End Script.


(** ** Vocabulary of the specification *)

Section Vocabulary.
Context `{Python}.

(** A MenuItem of the data model, seen through the defaults the classifier
    applies: a dict whose name and category, when present, are strings and
    whose macro block, when present, is a dict.  [calories] is the calorie
    value, 999 when the macro block or its calories entry is absent. *)
Record menu_item (d : list (string * json)) (nm cat : string) (calories : json)
  : Prop := MenuItem {
  item_name : dict_get d "name" (JStr "") = JStr nm;
  item_category : dict_get d "category" (JStr "") = JStr cat;
  item_calories :
    exists macros : list (string * json),
      dict_get d "macros" (JObj []) = JObj macros /\
      dict_get macros "calories" (JInt 999) = calories
}.

(** Rule 1 as the specification words it. *)
Definition kids_match (nm cat : string) : Prop :=
  exists pattern : string,
    In pattern kids_patterns /\
    (is_substring pattern (str_lower nm) \/ is_substring pattern (str_lower cat)).

(** The two predicates, each on its own. *)
Definition kids_matchb (nm cat : string) : bool :=
  existsb
    (fun pattern =>
       str_contains pattern (str_lower nm) || str_contains pattern (str_lower cat))
    kids_patterns.

Definition low_calb (c : Z) : bool := (c <=? CALORIE_THRESHOLD)%Z.

(** The classifier with its two rules in the other order, for comparison
    with [should_remove]. *)
Definition should_remove_low_first (item : json) : result (bool * string) :=
  (name_v <- py_get item "name" (JStr "") ;;
   nm <- py_lower name_v ;;
   category_v <- py_get item "category" (JStr "") ;;
   cat <- py_lower category_v ;;
   macros <- py_get item "macros" (JObj []) ;;
   calories <- py_get macros "calories" (JInt 999) ;;
   low <- py_le_int calories CALORIE_THRESHOLD ;;
   if low
   then Ok (true, "low_cal (" +:+ py_str calories +:+ " cal)")
   else
     match kids_loop kids_patterns nm cat calories with
     | Some r => Ok r
     | None => Ok (false, "")
     end)%R.

(** The macro block or its calories entry is missing. *)
Definition calories_absent (d : list (string * json)) : Prop :=
  dict_lookup "macros" d = None \/
  exists macros : list (string * json),
    dict_lookup "macros" d = Some (JObj macros) /\
    dict_lookup "calories" macros = None.

(** The classifier says keep. *)
Definition is_kept (item : json) : bool :=
  match should_remove item with
  | Ok (false, _) => true
  | _ => false
  end.

(** The item passes through the loop body without an exception: it is kept,
    or it is removed and has a name to record. *)
Definition classifiable (item : json) : Prop :=
  match should_remove item with
  | Ok (false, _) => True
  | Ok (true, _) => exists item_name : json, py_getitem item "name" = Ok item_name
  | Raise _ => False
  end.

(** The removed items with their reasons, and their removal records. *)
Definition removed_of (items : list json) : list (json * string) :=
  omap (fun item =>
          match should_remove item with
          | Ok (true, reason) => Some (item, reason)
          | _ => None
          end) items.

Definition records_of (restaurant : json) (items : list json) : list removal :=
  omap (fun item =>
          match should_remove item, py_getitem item "name" with
          | Ok (true, reason), Ok item_name =>
              Some (Removal restaurant item_name reason)
          | _, _ => None
          end) items.

(** The file at [filepath] loads as a dict whose items all pass through the
    loop. *)
Definition well_formed_file (files : gmap string string) (filepath : string)
  : Prop :=
  exists (text : string) (d : list (string * json)) (items : list json),
    files !! filepath = Some text /\
    json_load text = Some (JObj d) /\
    dict_get d "items" (JArr []) = JArr items /\
    Forall classifiable items.

(** The first six lines a run prints. *)
Definition header_lines (argv files : list string) : list string :=
  [rule;
   "MENU DATA CLEANUP "
     +:+ (if negb (APPLY argv) then "(DRY RUN)" else "(APPLYING CHANGES)");
   rule;
   "Calorie threshold: <= " +:+ decimal CALORIE_THRESHOLD;
   "Files to process: " +:+ nat_str (length files);
   ""%string].

(** The SQL escaping as the specification words it: every single quote is
    written twice, every other character as it is. *)
Fixpoint double_quotes (s : string) : string :=
  match s with
  | EmptyString => EmptyString
  | String c s' =>
      if Ascii.eqb c "'" then String "'" (String "'" (double_quotes s'))
      else String c (double_quotes s')
  end.

(** The last line a complete run prints. *)
Definition saved_line : string :=
  glyph_page +:+ " SQL also saved to: cleanup_menu_items.sql".

(** One condition of the kids DELETE. *)
Definition condition (restaurant item_name : string) : string :=
  "  (restaurant_name = '" +:+ double_quotes restaurant +:+ "' AND name = '"
  +:+ double_quotes item_name +:+ "')".

(** The three statements.  [closing] is what stands between the last
    condition and the end of the kids DELETE. *)
Definition kids_delete (conditions : list string) (closing : string) : string :=
  "DELETE FROM menu_items WHERE" +:+ nl +:+ str_join (" OR" +:+ nl) conditions
  +:+ closing.

Definition threshold_delete : string :=
  "DELETE FROM menu_items" +:+ nl +:+ "WHERE (macros->>'calories')::int <= "
  +:+ decimal CALORIE_THRESHOLD +:+ ";".

Definition verify_select : string :=
  "SELECT COUNT(*) as remaining_items FROM menu_items;".

(** The SQL as it reaches the console. *)
Definition console_sql (kids_items : list removal) (conditions : list string)
  : string :=
  "-- Delete kids menu items" +:+ nl
  +:+ (if nonempty kids_items
       then kids_delete conditions (nl +:+ ";") +:+ nl
       else "-- No kids items found" +:+ nl)
  +:+ nl
  +:+ "-- Delete low calorie / single ingredient items (<=100 cal)" +:+ nl
  +:+ threshold_delete +:+ nl
  +:+ nl
  +:+ "-- Verify: Count remaining items" +:+ nl
  +:+ verify_select +:+ nl
  +:+ nl.

(** The header of the SQL file and what follows it. *)
Definition file_sql_header (total_removed : nat) : string :=
  "-- AUTO-GENERATED: Cleanup script for menu_items table" +:+ nl
  +:+ "-- Generated by clean-menu-data.py" +:+ nl
  +:+ "-- Items to remove: " +:+ nat_str total_removed +:+ nl +:+ nl.

Definition file_sql_body (kids_items : list removal) (conditions : list string)
  : string :=
  "-- Step 1: Delete kids menu items by name" +:+ nl
  +:+ (if nonempty kids_items
       then kids_delete conditions ";" +:+ nl +:+ nl
       else ""%string)
  +:+ "-- Step 2: Delete all items with calories <= "
  +:+ decimal CALORIE_THRESHOLD +:+ nl
  +:+ threshold_delete +:+ nl
  +:+ nl
  +:+ "-- Step 3: Verify remaining count" +:+ nl
  +:+ verify_select +:+ nl.

End Vocabulary.

(** Whenever [m] returns, its value satisfies [Q]. *)
Definition returns {A : Type} (m : M A) (Q : A -> Prop) : Prop :=
  forall (w w' : world) (a : A), m w = (w', Ok a) -> Q a.

(** The running count of removed items is the number of removal records. *)
Definition counts_agree (acc : nat * nat * list removal) : Prop :=
  fst (fst acc) = length (snd acc).

(** No character of [s] is a lower-case k. *)
Fixpoint lacks_k (s : string) : bool :=
  match s with
  | EmptyString => true
  | String c s' => negb (Ascii.eqb c "k") && lacks_k s'
  end.

(** [m] leaves every file outside [touched] as it was, whether it returns or
    raises. *)
Definition frame {A : Type} (touched : string -> Prop) (m : M A) : Prop :=
  forall (w : world) (p : string),
    ~ touched p -> fs (fst (m w)) !! p = fs w !! p.

(** ** Example data *)

(** ASCII lower-casing; it agrees with [str.lower] on ASCII text. *)
Definition ascii_lower_char (c : ascii) : ascii :=
  let n := nat_of_ascii c in
  if (65 <=? n)%nat && (n <=? 90)%nat then ascii_of_nat (n + 32) else c.

Fixpoint ascii_lower (s : string) : string :=
  match s with
  | EmptyString => EmptyString
  | String c s' => String (ascii_lower_char c) (ascii_lower s')
  end.

(** Three items of the specification's examples, and one that is a kids item
    by its category alone and carries no macro block. *)
Definition burger : list (string * json) :=
  [("name", JStr "Kid's Burger"); ("macros", JObj [("calories", JInt 350)])].

Definition fries : list (string * json) :=
  [("name", JStr "Side of Fries"); ("macros", JObj [("calories", JInt 80)])].

Definition bowl : list (string * json) :=
  [("name", JStr "Grilled Chicken Bowl"); ("macros", JObj [("calories", JInt 620)])].

Definition kids_meal : list (string * json) :=
  [("name", JStr "Mini Tacos"); ("category", JStr "Kids Menu")].

(** A kids drink that is also low in calories: both rules apply to it. *)
Definition kids_juice : list (string * json) :=
  [("name", JStr "Kids Juice"); ("macros", JObj [("calories", JInt 60)])].

Definition joes : json :=
  JObj [("restaurant_name", JStr "Joe's");
        ("items", JArr [JObj burger; JObj fries; JObj bowl])].

(** A low-calorie item without a name, and a menu holding it. *)
Definition nameless : list (string * json) :=
  [("category", JStr "Sides"); ("macros", JObj [("calories", JInt 50)])].

Definition diner : json :=
  JObj [("restaurant_name", JStr "Diner"); ("items", JArr [JObj bowl; JObj nameless])].

(** An interpreter for the examples: ASCII lower-casing, a [json.load] that
    knows the text of the two menu files, and a [json.dump] that only tells
    how many items the document has. *)
Definition example_python : Python := {|
  str_lower := ascii_lower;
  py_repr := fun _ => "[...]"%string;
  json_load := fun text =>
    if String.eqb text "joes" then Some joes
    else if String.eqb text "diner" then Some diner
    else None;
  json_dump := fun data =>
    match data with
    | JObj d =>
        match dict_get d "items" (JArr []) with
        | JArr items => "{items: " +:+ nat_str (length items) +:+ "}"
        | _ => "{}"%string
        end
    | _ => "null"%string
    end
|}.

Definition joes_path : string := "data/jsons/joes_raw.json".
Definition diner_path : string := "data/jsons/diner_raw.json".
Definition sql_path : string := "cleanup_menu_items.sql".

(** A disk with the two menu files and no SQL file yet. *)
Definition example_world : world :=
  World (<[joes_path := "joes"%string]> (<[diner_path := "diner"%string]> ∅)) [].

(** ** Vocabulary of the further properties *)

Section Scan.
Context `{Python}.

(** Lines 56 to 76 as a function of what the file holds: everything the loop
    body does before its first [print].  The answer is the document and the
    three lists the item loop ends with. *)
Definition scan_file (filepath : string) (all_removed_items : list removal)
    (content : option string)
  : result (list (string * json)
            * (list json * list (json * string) * list removal)) :=
  (text <- match content with
           | Some text => Ok text
           | None => Raise FileNotFoundError
           end ;;
   data <- match json_load text with
           | Some d => Ok d
           | None => Raise LoadError
           end ;;
   restaurant <- py_get data "restaurant_name" (JStr (basename filepath)) ;;
   items <- py_get data "items" (JArr []) ;;
   original_count <- py_len items ;;
   elements <- py_iter items ;;
   r <- items_loop restaurant elements [] [] all_removed_items ;;
   match data with
   | JObj d => Ok (d, r)
   | _ => Raise AttributeError
   end)%R.

(** The accumulators of the file loop as a function of the disk it starts
    from. *)
Fixpoint scan_files (disk : gmap string string) (files : list string)
    (acc : nat * nat * list removal) : result (nat * nat * list removal) :=
  match files with
  | [] => Ok acc
  | filepath :: rest =>
      let '(total_removed, total_kept, all_removed_items) := acc in
      (r <- scan_file filepath all_removed_items (disk !! filepath) ;;
       let '(_, (kept, removed, all_removed_items')) := r in
       scan_files disk rest
         (total_removed + length removed, total_kept + length kept,
          all_removed_items'))%R
  end.

(** The items the loop visits in the file at [filepath]; none when the file
    does not get that far. *)
Definition menu_elements (disk : gmap string string) (filepath : string)
  : list json :=
  match disk !! filepath with
  | Some text =>
      match json_load text with
      | Some (JObj d) =>
          match py_iter (dict_get d "items" (JArr [])) with
          | Ok elements => elements
          | Raise _ => []
          end
      | _ => []
      end
  | None => []
  end.

(** The kids rule on its own: the item is a dict whose name or category,
    both strings, matches a kids pattern. *)
Definition item_kids (item : json) : bool :=
  match item with
  | JObj d =>
      match dict_get d "name" (JStr ""), dict_get d "category" (JStr "") with
      | JStr nm, JStr cat => kids_matchb nm cat
      | _, _ => false
      end
  | _ => false
  end.

(** The item is a MenuItem for some name, category and calorie value. *)
Definition is_menu_item (item : json) : Prop :=
  exists (d : list (string * json)) (nm cat : string) (calories : json),
    item = JObj d /\ menu_item d nm cat calories.

(** The file is well formed and the restaurant it names, or its file name
    when it names none, is a string. *)
Definition well_named_file (disk : gmap string string) (filepath : string)
  : Prop :=
  exists (text : string) (d : list (string * json)) (items : list json)
         (restaurant : string),
    disk !! filepath = Some text /\
    json_load text = Some (JObj d) /\
    dict_get d "items" (JArr []) = JArr items /\
    Forall classifiable items /\
    dict_get d "restaurant_name" (JStr (basename filepath)) = JStr restaurant.


End Scan.

(** Neither number nor boolean: [<=] against an int raises on it. *)
Definition non_numeric (v : json) : Prop :=
  match v with
  | JInt _ | JBool _ => False
  | _ => True
  end.

(** Both names of the record are strings. *)
Definition record_ok (r : removal) : Prop :=
  exists restaurant item_name : string,
    restaurant_name r = JStr restaurant /\ name r = JStr item_name.

(** Reading a quoted SQL literal's body: two single quotes stand for one, a
    single quote on its own ends the literal and is refused here. *)
Fixpoint undouble (s : string) : option string :=
  match s with
  | EmptyString => Some EmptyString
  | String c s' =>
      if Ascii.eqb c "'"
      then
        match s' with
        | String c' s'' =>
            if Ascii.eqb c' "'" then option_map (String "'") (undouble s'')
            else None
        | EmptyString => None
        end
      else option_map (String c) (undouble s')
  end.

(** ** More example data *)

(** The Joe's menu after an apply run, a menu without an items entry and
    menus whose items entry is not a list. *)
Definition joes_kept : json :=
  JObj [("restaurant_name", JStr "Joe's"); ("items", JArr [JObj bowl])].

Definition no_items : json := JObj [("restaurant_name", JStr "Empty")].

Definition null_items : json := JObj [("items", JNull)].

Definition text_items : json := JObj [("items", JStr "abc")].

(** A menu that does not name its restaurant. *)
Definition unnamed : json := JObj [("items", JArr [JObj fries])].

(** An interpreter whose [json.load] reads back what its [json.dump] writes
    for the Joe's menu, and knows the odd menus. *)
Definition second_python : Python := {|
  str_lower := ascii_lower;
  py_repr := fun _ => "[...]"%string;
  json_load := fun text =>
    if String.eqb text "joes" then Some joes
    else if String.eqb text "joes, kept" then Some joes_kept
    else if String.eqb text "no items" then Some no_items
    else if String.eqb text "null items" then Some null_items
    else if String.eqb text "text items" then Some text_items
    else if String.eqb text "unnamed" then Some unnamed
    else None;
  json_dump := fun _ => "joes, kept"%string
|}.

Definition no_items_path : string := "data/jsons/empty_raw.json".
Definition null_items_path : string := "data/jsons/null_raw.json".
Definition text_items_path : string := "data/jsons/text_raw.json".
Definition unnamed_path : string := "data/jsons/unnamed_raw.json".

Definition second_world : world :=
  World (<[joes_path := "joes"%string]>
           (<[no_items_path := "no items"%string]>
              (<[null_items_path := "null items"%string]>
                 (<[text_items_path := "text items"%string]>
                    (<[unnamed_path := "unnamed"%string]> ∅))))) [].

Section Settled.
Context `{Python}.


End Settled.

(** Whenever [m] raises, the exception satisfies [P]. *)
Definition raises {A : Type} (m : M A) (P : exn -> Prop) : Prop :=
  forall (w w' : world) (e : exn), m w = (w', Raise e) -> P e.

(** Not a [KeyError], or the one for the key [name]. *)
Definition only_name_key (e : exn) : Prop :=
  forall key : string, e = KeyError key -> key = "name"%string.

(** A menu whose restaurant name is a number. *)
Definition numbered : json :=
  JObj [("restaurant_name", JInt 7); ("items", JArr [JObj burger; JObj bowl])].

Definition numbered_path : string := "data/jsons/numbered_raw.json".

(** An interpreter that knows the numbered menu and a text that is not JSON
    at all; a disk with the numbered menu, a menu that is a bare list and a
    file that does not decode. *)
Definition third_python : Python := {|
  str_lower := ascii_lower;
  py_repr := fun _ => "[...]"%string;
  json_load := fun text =>
    if String.eqb text "numbered" then Some numbered
    else if String.eqb text "bare list" then Some (JArr [JObj burger])
    else None;
  json_dump := fun _ => "numbered, kept"%string
|}.

Definition bare_list_path : string := "data/jsons/list_raw.json".
Definition broken_path : string := "data/jsons/broken_raw.json".

Definition third_world : world :=
  World (<[numbered_path := "numbered"%string]>
           (<[bare_list_path := "bare list"%string]>
              (<[broken_path := "{not json"%string]> ∅))) [].

(** [m] deletes no file: what was on the disk before is still there after,
    whether [m] returns or raises. *)
Definition keeps_files {A : Type} (m : M A) : Prop :=
  forall (w : world) (p : string),
    is_Some (fs w !! p) -> is_Some (fs (fst (m w)) !! p).

(** The exceptions that the data of the menu files can cause: a document
    that does not load, a value of the wrong type, a missing key.  A failure
    of [print], of [open(path, 'w')] or of a write is none of them. *)
Definition data_exception (e : exn) : Prop :=
  e = AttributeError \/ e = TypeError \/ (exists key : string, e = KeyError key) \/
  e = LoadError.

(** * Properties *)

(** ** Strings *)

Lemma append_nil (b : string) : "" +:+ b = b.
Proof. reflexivity. Qed.

Lemma append_cons (x : ascii) (a b : string) :
  String x a +:+ b = String x (a +:+ b).
Proof. reflexivity. Qed.

Lemma append_assoc (a b c : string) : (a +:+ b) +:+ c = a +:+ b +:+ c.
Proof.
  induction a as [|x a IH]; [reflexivity|].
  rewrite !append_cons. now rewrite IH.
Qed.

Lemma append_empty_r (a : string) : a +:+ "" = a.
Proof.
  induction a as [|x a IH]; [reflexivity|].
  rewrite append_cons. now rewrite IH.
Qed.

Lemma prefix_spec (p s : string) :
  str_prefix p s = true <-> exists t : string, s = p +:+ t.
Proof.
  revert s. induction p as [|c p IH]; intros s; simpl.
  - split; [intros _; now exists s | reflexivity].
  - destruct s as [|c' s].
    + split; [discriminate | intros [t Ht]; discriminate].
    + destruct (Ascii.eqb_spec c c') as [->|Hne]; cbn [andb].
      * rewrite IH. split; intros [t Ht]; exists t.
        -- rewrite append_cons. congruence.
        -- rewrite append_cons in Ht. congruence.
      * split; [discriminate | intros [t Ht]].
        rewrite append_cons in Ht. congruence.
Qed.

Lemma str_contains_spec (p s : string) :
  str_contains p s = true <-> is_substring p s.
Proof.
  unfold is_substring. induction s as [|c s IH].
  - simpl. rewrite orb_false_r, prefix_spec. split.
    + intros [t Ht]. now exists ""%string, t.
    + intros [[|x pre] [post Hs]]; [now exists post | discriminate].
  - cbn [str_contains]. rewrite orb_true_iff, prefix_spec, IH. split.
    + intros [[t Ht] | (pre & post & Hs)].
      * now exists ""%string, t.
      * exists (String c pre), post. rewrite append_cons. now rewrite Hs.
    + intros [[|x pre] [post Hs]].
      * left. now exists post.
      * right. exists pre, post. rewrite append_cons in Hs. congruence.
Qed.

Section ClassifierFacts.
Context `{Python}.

Lemma kids_loop_existsb (patterns : list string) (nm cat : string) (calories : json) :
  kids_loop patterns nm cat calories =
  if existsb (fun p => str_contains p nm || str_contains p cat) patterns
  then Some (true, "kids_item (cal=" +:+ py_str calories +:+ ")")
  else None.
Proof.
  induction patterns as [|p ps IH]; simpl; [reflexivity|].
  destruct (str_contains p nm || str_contains p cat); [reflexivity | exact IH].
Qed.

Lemma kids_matchb_spec (nm cat : string) :
  kids_matchb nm cat = true <-> kids_match nm cat.
Proof.
  unfold kids_matchb, kids_match. rewrite existsb_exists.
  split; intros (p & Hin & Hp); exists p; split; try assumption.
  - apply orb_true_iff in Hp. now rewrite <- !str_contains_spec.
  - apply orb_true_iff. now rewrite !str_contains_spec.
Qed.

(** What [should_remove] computes on a MenuItem, before any case split. *)
Lemma should_remove_menu_item (d : list (string * json)) (nm cat : string)
    (calories : json) :
  menu_item d nm cat calories ->
  should_remove (JObj d) =
  if kids_matchb nm cat
  then Ok (true, "kids_item (cal=" +:+ py_str calories +:+ ")")
  else
    bind_result (py_le_int calories CALORIE_THRESHOLD)
      (fun low =>
         if low
         then Ok (true, "low_cal (" +:+ py_str calories +:+ " cal)")
         else Ok (false, ""%string)).
Proof.
  intros [Hn Hc (macros & Hm & Hcal)].
  unfold should_remove, py_get. cbn [bind_result].
  rewrite Hn, Hc, Hm. cbn [bind_result py_lower]. rewrite Hcal.
  rewrite kids_loop_existsb. fold (kids_matchb nm cat).
  now destruct (kids_matchb nm cat).
Qed.

End ClassifierFacts.

(** ** The item loop *)

Section LoopFacts.
Context `{Python}.

Lemma items_loop_ok (restaurant : json) (items kept : list json)
    (removed : list (json * string)) (all_removed_items : list removal) :
  Forall classifiable items ->
  items_loop restaurant items kept removed all_removed_items =
  Ok (kept ++ List.filter is_kept items,
      removed ++ removed_of items,
      all_removed_items ++ records_of restaurant items).
Proof.
  intros Hall. revert kept removed all_removed_items.
  induction Hall as [|item items Hitem _ IH]; intros kept removed recs.
  - cbn. now rewrite !app_nil_r.
  - cbn [items_loop List.filter]. unfold removed_of, records_of, is_kept.
    cbn [omap list_omap]. fold (removed_of items) (records_of restaurant items).
    unfold classifiable in Hitem.
    destruct (should_remove item) as [[[|] reason]|e]; cbn [bind_result].
    + destruct Hitem as [item_name Hname]. rewrite Hname. cbn [bind_result].
      rewrite IH. now rewrite <- !app_assoc.
    + rewrite IH. now rewrite <- !app_assoc.
    + contradiction.
Qed.

Lemma items_loop_classifiable (restaurant : json) (items kept : list json)
    (removed : list (json * string)) (all_removed_items : list removal)
    (out : list json * list (json * string) * list removal) :
  items_loop restaurant items kept removed all_removed_items = Ok out ->
  Forall classifiable items.
Proof.
  revert kept removed all_removed_items.
  induction items as [|item items IH]; intros kept removed recs Hloop.
  - constructor.
  - cbn [items_loop] in Hloop. constructor.
    + unfold classifiable.
      destruct (should_remove item) as [[[|] reason]|e]; cbn [bind_result] in Hloop.
      * destruct (py_getitem item "name") as [item_name|e]; [now exists item_name|].
        discriminate.
      * exact I.
      * discriminate.
    + destruct (should_remove item) as [[[|] reason]|e]; cbn [bind_result] in Hloop.
      * destruct (py_getitem item "name") as [item_name|e]; [|discriminate].
        cbn [bind_result] in Hloop. exact (IH _ _ _ Hloop).
      * exact (IH _ _ _ Hloop).
      * discriminate.
Qed.

(** The loop stops at the first item that raises. *)
Lemma items_loop_raise (restaurant : json) (before after : list json) (item : json)
    (kept : list json) (removed : list (json * string))
    (all_removed_items : list removal) (e : exn) :
  Forall classifiable before ->
  match should_remove item with
  | Ok (true, _) => py_getitem item "name" = Raise e
  | Ok (false, _) => False
  | Raise e' => e' = e
  end ->
  items_loop restaurant (before ++ item :: after) kept removed all_removed_items =
  Raise e.
Proof.
  intros Hbefore. revert kept removed all_removed_items.
  induction Hbefore as [|x before Hx _ IH]; intros kept removed recs Hitem.
  - cbn [app items_loop].
    destruct (should_remove item) as [[[|] reason]|e']; cbn [bind_result].
    + now rewrite Hitem.
    + contradiction.
    + now subst.
  - cbn [app items_loop]. unfold classifiable in Hx.
    destruct (should_remove x) as [[[|] reason]|e']; cbn [bind_result].
    + destruct Hx as [item_name ->]. cbn [bind_result]. now apply IH.
    + now apply IH.
    + contradiction.
Qed.

Lemma is_kept_classifiable (item : json) :
  is_kept item = true -> classifiable item.
Proof.
  unfold is_kept, classifiable.
  destruct (should_remove item) as [[[|] reason]|e]; [discriminate | trivial | discriminate].
Qed.

Lemma removed_of_kept (items : list json) :
  Forall (fun item => is_kept item = true) items -> removed_of items = [].
Proof.
  induction 1 as [|item items Hitem _ IH]; [reflexivity|].
  unfold removed_of. cbn [omap list_omap]. fold (removed_of items). rewrite IH.
  unfold is_kept in Hitem.
  destruct (should_remove item) as [[[|] reason]|e]; [discriminate | reflexivity | discriminate].
Qed.

Lemma records_of_kept (restaurant : json) (items : list json) :
  Forall (fun item => is_kept item = true) items -> records_of restaurant items = [].
Proof.
  induction 1 as [|item items Hitem _ IH]; [reflexivity|].
  unfold records_of. cbn [omap list_omap]. fold (records_of restaurant items).
  rewrite IH. unfold is_kept in Hitem.
  destruct (should_remove item) as [[[|] reason]|e]; [discriminate | reflexivity | discriminate].
Qed.

Lemma filter_all_kept (items : list json) :
  Forall (fun item => is_kept item = true) items -> List.filter is_kept items = items.
Proof.
  induction 1 as [|item items Hitem _ IH]; [reflexivity|].
  cbn [List.filter]. now rewrite Hitem, IH.
Qed.

Lemma filter_is_kept (items : list json) :
  Forall (fun item => is_kept item = true) (List.filter is_kept items).
Proof.
  induction items as [|item items IH]; [constructor|].
  cbn [List.filter]. destruct (is_kept item) eqn:Hk; [now constructor | exact IH].
Qed.

End LoopFacts.

(** ** Running one file *)

Lemma pair_of_snd {A B : Type} (p : A * B) (b : B) : snd p = b -> p = (fst p, b).
Proof. intros <-. apply surjective_pairing. Qed.

Lemma bind_ok {A B : Type} (m : M A) (k : A -> M B) (w w' : world) (a : A) :
  m w = (w', Ok a) -> bind m k w = k a w'.
Proof. intros Hm. unfold bind. now rewrite Hm. Qed.

Lemma bind_raise {A B : Type} (m : M A) (k : A -> M B) (w w' : world) (e : exn) :
  m w = (w', Raise e) -> bind m k w = (w', Raise e).
Proof. intros Hm. unfold bind. now rewrite Hm. Qed.

Ltac run_io :=
  cbv [bind lift ret print read_text open_w f_write]; cbn [fs stdout].

Section FileFacts.
Context `{Python}.

(** Whatever [should_remove] answers, its argument was a MenuItem. *)
Lemma should_remove_menu_item_inv (item : json) (r : bool * string) :
  should_remove item = Ok r ->
  exists (d : list (string * json)) (nm cat : string) (calories : json),
    item = JObj d /\ menu_item d nm cat calories.
Proof.
  unfold should_remove. destruct item as [| | | | |d]; try discriminate.
  unfold py_get. cbn [bind_result].
  destruct (dict_get d "name" (JStr "")) as [| | |nm| |] eqn:Hn; try discriminate.
  cbn [py_lower bind_result].
  destruct (dict_get d "category" (JStr "")) as [| | |cat| |] eqn:Hc; try discriminate.
  cbn [py_lower bind_result].
  destruct (dict_get d "macros" (JObj [])) as [| | | | |macros] eqn:Hm; try discriminate.
  intros _. exists d, nm, cat, (dict_get macros "calories" (JInt 999)).
  split; [reflexivity|]. split; [assumption | assumption |].
  exists macros. split; [assumption | reflexivity].
Qed.

(** The report lines of one file never raise and touch no file. *)
Lemma print_removed_ok (items : list json) :
  Forall classifiable items ->
  exists out : list string,
    forall w : world,
      print_removed (removed_of items) w = (World (fs w) (stdout w ++ out), Ok tt).
Proof.
  induction 1 as [|item items Hitem _ [out IH]].
  - exists []. intros [f o]. cbn. now rewrite app_nil_r.
  - unfold removed_of. cbn [omap list_omap]. fold (removed_of items).
    unfold classifiable in Hitem.
    destruct (should_remove item) as [[[|] reason]|e] eqn:Hsr;
      [| now exists out | contradiction].
    destruct Hitem as [item_name Hname].
    destruct (should_remove_menu_item_inv _ _ Hsr)
      as (d & nm & cat & calories & -> & [_ _ (macros & Hm & _)]).
    cbn [print_removed].
    eexists (_ :: out). intros w. run_io.
    cbn [py_get]. rewrite Hm. cbn [py_get]. rewrite Hname.
    rewrite IH. cbn [fs stdout]. now rewrite <- app_assoc.
Qed.

(** One file whose items all pass through the loop: what is written, what is
    counted and what is recorded. *)
Lemma file_body_ok (apply : bool) (filepath text : string)
    (total_removed total_kept : nat) (all_removed_items : list removal)
    (w : world) (d : list (string * json)) (items : list json) :
  fs w !! filepath = Some text ->
  json_load text = Some (JObj d) ->
  dict_get d "items" (JArr []) = JArr items ->
  Forall classifiable items ->
  exists out : list string,
    file_body apply filepath (total_removed, total_kept, all_removed_items) w =
    (World
       (if apply && nonempty (removed_of items)
        then <[filepath :=
                 json_dump (JObj (dict_set "items" (JArr (List.filter is_kept items)) d))]>
               (fs w)
        else fs w)
       (stdout w ++ out),
     Ok (total_removed + length (removed_of items),
         total_kept + length (List.filter is_kept items),
         all_removed_items
           ++ records_of (dict_get d "restaurant_name" (JStr (basename filepath)))
                items)).
Proof.
  intros Hfile Hload Hitems Hall.
  destruct (print_removed_ok items Hall) as [out Hprint].
  unfold file_body. run_io. rewrite Hfile, Hload. cbn [py_get]. rewrite Hitems.
  cbn [py_len py_iter]. rewrite (items_loop_ok _ _ _ _ _ Hall). cbn [app].
  destruct (nonempty (removed_of items)) eqn:Hne.
  - destruct apply; cbn [andb].
    + eexists. rewrite Hprint. cbn [fs stdout py_setitem].
      rewrite lookup_insert_eq, insert_insert_eq. cbn [default].
      rewrite append_nil, <- !app_assoc. reflexivity.
    + eexists. rewrite Hprint. cbn [fs stdout].
      rewrite <- !app_assoc. reflexivity.
  - rewrite andb_false_r. exists []. rewrite app_nil_r. now destruct w.
Qed.

(** An exception in the item loop leaves the file body before anything is
    printed or written. *)
Lemma file_body_raise (apply : bool) (filepath text : string)
    (total_removed total_kept : nat) (all_removed_items : list removal)
    (w : world) (d : list (string * json)) (items : list json) (e : exn) :
  fs w !! filepath = Some text ->
  json_load text = Some (JObj d) ->
  dict_get d "items" (JArr []) = JArr items ->
  items_loop (dict_get d "restaurant_name" (JStr (basename filepath))) items [] []
    all_removed_items = Raise e ->
  file_body apply filepath (total_removed, total_kept, all_removed_items) w =
  (w, Raise e).
Proof.
  intros Hfile Hload Hitems Hloop.
  unfold file_body. run_io. rewrite Hfile, Hload. cbn [py_get]. rewrite Hitems.
  cbn [py_len py_iter]. now rewrite Hloop.
Qed.

End FileFacts.

(** ** Which files a computation can change *)

Lemma frame_weaken {A : Type} (T T' : string -> Prop) (m : M A) :
  (forall p, T p -> T' p) -> frame T m -> frame T' m.
Proof. intros Hsub Hm w p Hp. apply Hm. intros HT. apply Hp, Hsub, HT. Qed.

Lemma frame_ret {A : Type} (T : string -> Prop) (a : A) : frame T (ret a).
Proof. intros w p _. reflexivity. Qed.

Lemma frame_lift {A : Type} (T : string -> Prop) (r : result A) : frame T (lift r).
Proof. intros w p _. reflexivity. Qed.

Lemma frame_print (T : string -> Prop) (s : string) : frame T (print s).
Proof. intros w p _. reflexivity. Qed.

Lemma frame_read_text (T : string -> Prop) (path : string) : frame T (read_text path).
Proof. intros w p _. unfold read_text. now destruct (fs w !! path). Qed.

Lemma frame_open_w (T : string -> Prop) (path : string) :
  T path -> frame T (open_w path).
Proof.
  intros HT w p Hp. cbn. apply lookup_insert_ne. intros ->. now apply Hp.
Qed.

Lemma frame_f_write (T : string -> Prop) (path s : string) :
  T path -> frame T (f_write path s).
Proof.
  intros HT w p Hp. cbn. apply lookup_insert_ne. intros ->. now apply Hp.
Qed.

Lemma frame_bind {A B : Type} (T : string -> Prop) (m : M A) (k : A -> M B) :
  frame T m -> (forall a, frame T (k a)) -> frame T (bind m k).
Proof.
  intros Hm Hk w p Hp. unfold bind. specialize (Hm w p Hp).
  destruct (m w) as [w' [a|e]]; cbn [fst] in *.
  - now rewrite (Hk a w' p Hp).
  - exact Hm.
Qed.

Ltac frame_steps :=
  repeat first
    [ apply frame_bind; [|intros ?]
    | apply frame_ret | apply frame_lift | apply frame_print
    | apply frame_read_text
    | match goal with
      | |- frame _ (match ?x with _ => _ end) => is_var x; destruct x
      end ].

Section FrameFacts.
Context `{Python}.

Lemma frame_print_removed (T : string -> Prop) (removed : list (json * string)) :
  frame T (print_removed removed).
Proof.
  induction removed as [|[item reason] removed IH]; cbn [print_removed].
  - apply frame_ret.
  - frame_steps. exact IH.
Qed.

(** A file body changes at most its own file, and only in apply mode. *)
Lemma frame_file_body (apply : bool) (filepath : string)
    (acc : nat * nat * list removal) :
  frame (fun p => apply = true /\ p = filepath) (file_body apply filepath acc).
Proof.
  destruct acc as [[total_removed total_kept] all_removed_items].
  unfold file_body. frame_steps.
  - match goal with |- frame _ (if nonempty ?r then _ else _) => destruct (nonempty r) end;
      frame_steps.
    apply frame_print_removed.
  - destruct apply; cbn [andb]; [|apply frame_ret].
    match goal with |- frame _ (if nonempty ?r then _ else _) => destruct (nonempty r) end;
      frame_steps.
    + now apply frame_open_w.
    + now apply frame_f_write.
Qed.

Lemma frame_files_loop (apply : bool) (files : list string)
    (acc : nat * nat * list removal) :
  frame (fun p => apply = true /\ In p files) (files_loop apply files acc).
Proof.
  revert acc. induction files as [|filepath files IH]; intros acc.
  - apply frame_ret.
  - cbn [files_loop]. apply frame_bind.
    + eapply frame_weaken; [|apply frame_file_body].
      intros p [Ha ->]. split; [exact Ha | now left].
    + intros acc'. eapply frame_weaken; [|apply IH].
      intros p [Ha Hp]. split; [exact Ha | now right].
Qed.

Lemma frame_report (apply : bool) (sql_file : string)
    (acc : nat * nat * list removal) :
  frame (fun p => p = sql_file) (report apply sql_file acc).
Proof.
  destruct acc as [[total_removed total_kept] all_removed_items].
  unfold report, print_summary, print_sql, write_sql.
  frame_steps;
    try (destruct apply; cbn [negb]; frame_steps);
    try (destruct (nonempty (kids_of all_removed_items)); frame_steps);
    try (now apply frame_open_w); try (now apply frame_f_write).
Qed.

(** The whole run changes at most the SQL file and, in apply mode, the menu
    files it was given. *)
Lemma frame_process_files (argv files : list string) (sql_file : string) :
  frame (fun p => p = sql_file \/ (APPLY argv = true /\ In p files))
        (process_files argv files sql_file).
Proof.
  unfold process_files. frame_steps.
  - eapply frame_weaken; [|apply frame_files_loop]. intros p Hp. now right.
  - eapply frame_weaken; [|apply frame_report]. intros p Hp. now left.
Qed.

End FrameFacts.

(** ** Running the file loop *)

Section RunFacts.
Context `{Python}.

Lemma files_loop_app (apply : bool) (before after : list string)
    (acc : nat * nat * list removal) (w : world) :
  files_loop apply (before ++ after) acc w =
  bind (files_loop apply before acc) (files_loop apply after) w.
Proof.
  revert acc w. induction before as [|filepath before IH]; intros acc w.
  - reflexivity.
  - cbn [app files_loop]. unfold bind.
    destruct (file_body apply filepath acc w) as [w' [acc'|e]]; [|reflexivity].
    rewrite IH. reflexivity.
Qed.

Lemma well_formed_file_agree (files files' : gmap string string) (filepath : string) :
  files' !! filepath = files !! filepath ->
  well_formed_file files filepath -> well_formed_file files' filepath.
Proof.
  intros Hsame (text & d & items & Hfile & Hrest).
  exists text, d, items. split; [now rewrite Hsame | exact Hrest].
Qed.

(** Distinct well-formed files are all processed. *)
Lemma files_loop_ok (apply : bool) (files : list string)
    (acc : nat * nat * list removal) (w : world) :
  NoDup files ->
  (forall g, In g files -> well_formed_file (fs w) g) ->
  exists (w' : world) (acc' : nat * nat * list removal),
    files_loop apply files acc w = (w', Ok acc').
Proof.
  intros Hnd. revert acc w.
  induction Hnd as [|filepath files Hfresh Hnd IH]; intros acc w Hwf.
  - exists w, acc. reflexivity.
  - destruct (Hwf filepath (or_introl eq_refl))
      as (text & d & items & Hfile & Hload & Hitems & Hall).
    destruct acc as [[total_removed total_kept] all_removed_items].
    destruct (file_body_ok apply filepath text total_removed total_kept
                all_removed_items w d items Hfile Hload Hitems Hall)
      as [out Hbody].
    cbn [files_loop]. unfold bind. rewrite Hbody.
    apply IH. intros g Hg. cbn [fs].
    apply (well_formed_file_agree (fs w)); [|apply Hwf; now right].
    destruct (apply && nonempty (removed_of items)); [|reflexivity].
    apply lookup_insert_ne. intros ->. apply Hfresh.
    now apply list_elem_of_In.
Qed.

Lemma process_files_run (argv files : list string) (sql_file : string) (w : world) :
  process_files argv files sql_file w =
  bind (files_loop (APPLY argv) files (0, 0, [])) (report (APPLY argv) sql_file)
       (World (fs w) (stdout w ++ header_lines argv files)).
Proof.
  unfold process_files, header_lines.
  cbv [bind print]. cbn [fs stdout]. now rewrite <- !app_assoc.
Qed.

End RunFacts.

(** ** The SQL *)

Lemma replace_from_quote (s : string) :
  replace_from "'" "''" 0 s = double_quotes s.
Proof.
  induction s as [|c s IH]; [reflexivity|].
  cbn [replace_from str_prefix double_quotes String.length Nat.sub].
  rewrite andb_true_r, Ascii.eqb_sym.
  destruct (Ascii.eqb c "'"); rewrite IH; reflexivity.
Qed.

(** Replacing the single quote by two is the doubling of the specification. *)
Lemma replace_quote (s : string) : str_replace "'" "''" s = double_quotes s.
Proof. apply replace_from_quote. Qed.

Lemma f_write_run (path s text : string) (files : gmap string string)
    (out : list string) :
  f_write path s (World (<[path := text]> files) out) =
  (World (<[path := text +:+ s]> files) out, Ok tt).
Proof.
  unfold f_write. cbn [fs stdout].
  now rewrite lookup_insert_eq, insert_insert_eq.
Qed.

Section SqlFacts.
Context `{Python}.

Lemma conditions_loop_acc (kids_items : list removal) (conditions : list string) :
  conditions_loop kids_items conditions =
  bind_result (conditions_loop kids_items [])
    (fun more => Ok (conditions ++ more)).
Proof.
  revert conditions. induction kids_items as [|item rest IH]; intros conditions.
  - cbn. now rewrite app_nil_r.
  - cbn [conditions_loop].
    destruct (py_replace (name item) "'" "''") as [escaped_name|e];
      [|reflexivity].
    destruct (py_replace (restaurant_name item) "'" "''") as [escaped_restaurant|e];
      [|reflexivity].
    cbn [bind_result app]. rewrite IH. rewrite (IH [_]).
    destruct (conditions_loop rest []) as [more|e]; [|reflexivity].
    cbn [bind_result app]. now rewrite <- app_assoc.
Qed.

(** The console part: the same lines in either mode. *)
Lemma print_sql_run (kids_items : list removal) (conditions : list string)
    (w : world) :
  conditions_loop kids_items [] = Ok conditions ->
  exists lines : list string,
    print_sql kids_items w = (World (fs w) (stdout w ++ lines), Ok tt) /\
    stream lines = console_sql kids_items conditions.
Proof.
  intros Hconds. unfold print_sql, console_sql, kids_delete, threshold_delete.
  destruct (nonempty kids_items); run_io; [rewrite Hconds|]; run_io;
    (eexists; split; [rewrite <- !app_assoc; cbn [app]; reflexivity|]);
    cbn [stream fold_right]; rewrite ?append_assoc, ?append_nil; reflexivity.
Qed.

(** The file part. *)
Lemma write_sql_run (sql_file : string) (total_removed : nat)
    (kids_items : list removal) (conditions : list string) (w : world) :
  conditions_loop kids_items [] = Ok conditions ->
  write_sql sql_file total_removed kids_items w =
  (World (<[sql_file := file_sql_header total_removed
                        +:+ file_sql_body kids_items conditions]> (fs w))
         (stdout w),
   Ok tt).
Proof.
  intros Hconds.
  unfold write_sql, file_sql_header, file_sql_body, kids_delete, threshold_delete.
  unfold bind at 1. cbn [open_w].
  destruct (nonempty kids_items);
    repeat (unfold bind at 1; rewrite ?Hconds; cbn [lift ret];
            rewrite ?f_write_run; cbn beta iota);
    rewrite ?f_write_run, ?append_assoc, ?append_nil; reflexivity.
Qed.

Lemma print_summary_run (apply : bool) (total_removed total_kept : nat) :
  exists lines : list string,
    forall w : world,
      print_summary apply total_removed total_kept w =
      (World (fs w) (stdout w ++ lines), Ok tt).
Proof.
  unfold print_summary. destruct apply; cbn [negb];
    (eexists; intros w; run_io; rewrite <- !app_assoc; cbn [app]; reflexivity).
Qed.

(** Everything after the file loop, when the conditions can be built. *)
Lemma report_run (apply : bool) (sql_file : string) (total_removed total_kept : nat)
    (all_removed_items : list removal) (conditions : list string) (w : world) :
  conditions_loop (kids_of all_removed_items) [] = Ok conditions ->
  exists summary console : list string,
    report apply sql_file (total_removed, total_kept, all_removed_items) w =
    (World (<[sql_file := file_sql_header total_removed
                          +:+ file_sql_body (kids_of all_removed_items) conditions]>
              (fs w))
           (stdout w ++ summary ++ console ++ [saved_line]),
     Ok tt) /\
    stream console = console_sql (kids_of all_removed_items) conditions.
Proof.
  intros Hconds.
  destruct (print_summary_run apply total_removed total_kept) as [summary Hsum].
  destruct (print_sql_run (kids_of all_removed_items) conditions
              (World (fs w) (stdout w ++ summary)) Hconds)
    as (console & Hprint & Hstream).
  exists summary, console. split; [|exact Hstream].
  unfold report. unfold bind at 1. rewrite Hsum.
  unfold bind at 1. rewrite Hprint. cbn [fs stdout].
  unfold bind at 1. rewrite (write_sql_run _ _ _ conditions _ Hconds).
  unfold print, saved_line. cbn [fs stdout]. now rewrite <- !app_assoc.
Qed.

(** When the conditions cannot be built the report raises before the SQL
    file is opened. *)
Lemma report_raise (apply : bool) (sql_file : string) (total_removed total_kept : nat)
    (all_removed_items : list removal) (e : exn) (w : world) :
  conditions_loop (kids_of all_removed_items) [] = Raise e ->
  exists out : list string,
    report apply sql_file (total_removed, total_kept, all_removed_items) w =
    (World (fs w) (stdout w ++ out), Raise e).
Proof.
  intros Hconds.
  destruct (print_summary_run apply total_removed total_kept) as [summary Hsum].
  unfold report. eexists. unfold bind at 1. rewrite Hsum.
  unfold bind at 1. unfold print_sql.
  destruct (kids_of all_removed_items) as [|item rest] eqn:Hkids;
    [discriminate|].
  cbn [nonempty]. run_io. rewrite Hconds.
  rewrite <- !app_assoc. reflexivity.
Qed.

End SqlFacts.

(** ** Keeping and filtering *)

Section KeepFacts.
Context `{Python}.

(** A keep answer always comes with the empty reason. *)
Lemma is_kept_spec (item : json) :
  is_kept item = true <-> should_remove item = Ok (false, ""%string).
Proof.
  unfold is_kept. split; [|now intros ->].
  destruct (should_remove item) as [[[|] reason]|e] eqn:Hsr; try discriminate.
  intros _.
  destruct (should_remove_menu_item_inv _ _ Hsr)
    as (d & nm & cat & calories & -> & Hitem).
  rewrite (should_remove_menu_item d nm cat calories Hitem) in Hsr.
  destruct (kids_matchb nm cat); [discriminate|].
  destruct (py_le_int calories CALORIE_THRESHOLD) as [[|]|e];
    cbn [bind_result] in Hsr; congruence.
Qed.

Lemma filter_In_kept (items : list json) (item : json) :
  In item (List.filter is_kept items) <->
  In item items /\ should_remove item = Ok (false, ""%string).
Proof. now rewrite filter_In, is_kept_spec. Qed.

Lemma filter_sublist (items : list json) : sublist (List.filter is_kept items) items.
Proof.
  induction items as [|item items IH]; cbn [List.filter]; [constructor|].
  destruct (is_kept item); now constructor.
Qed.

(** With nothing removed, the kept list is the whole list. *)
Lemma nothing_removed_all_kept (items : list json) :
  Forall classifiable items ->
  removed_of items = [] -> List.filter is_kept items = items.
Proof.
  induction 1 as [|item items Hitem _ IH]; [reflexivity|].
  unfold removed_of. cbn [omap list_omap List.filter]. fold (removed_of items).
  unfold classifiable in Hitem.
  assert (Hkept : is_kept item = match should_remove item with
                                 | Ok (false, _) => true
                                 | _ => false
                                 end) by reflexivity.
  rewrite Hkept. clear Hkept.
  destruct (should_remove item) as [[[|] reason]|e];
    [discriminate | | contradiction].
  intros Hrest. now rewrite (IH Hrest).
Qed.

Lemma dict_get_set (k : string) (v default : json) (d : list (string * json)) :
  dict_get (dict_set k v d) k default = v.
Proof.
  unfold dict_get. induction d as [|[k' v'] d IH]; cbn [dict_set dict_lookup].
  - now rewrite String.eqb_refl.
  - destruct (String.eqb k k') eqn:Hk; cbn [dict_lookup].
    + now rewrite String.eqb_refl.
    + now rewrite Hk.
Qed.

Lemma dict_lookup_set_other (k k' : string) (v : json) (d : list (string * json)) :
  k' <> k -> dict_lookup k' (dict_set k v d) = dict_lookup k' d.
Proof.
  intros Hne. induction d as [|[k0 v0] d IH]; cbn [dict_set dict_lookup].
  - now rewrite (proj2 (String.eqb_neq k' k) Hne).
  - destruct (String.eqb k k0) eqn:Hk; cbn [dict_lookup].
    + apply String.eqb_eq in Hk. subst k0.
      now rewrite (proj2 (String.eqb_neq k' k) Hne).
    + now rewrite IH.
Qed.

End KeepFacts.

(** ** Counts and reasons *)

Lemma returns_true {A : Type} (m : M A) : returns m (fun _ => True).
Proof. intros w w' a _. exact I. Qed.

Lemma returns_ret {A : Type} (a : A) (Q : A -> Prop) : Q a -> returns (ret a) Q.
Proof. intros HQ w w' a' [= _ <-]. exact HQ. Qed.

Lemma returns_lift {A : Type} (r : result A) (Q : A -> Prop) :
  (forall a, r = Ok a -> Q a) -> returns (lift r) Q.
Proof. intros HQ w w' a [= _ ->]. now apply HQ. Qed.

Lemma returns_bind {A B : Type} (m : M A) (k : A -> M B) (P : A -> Prop)
    (Q : B -> Prop) :
  returns m P -> (forall a, P a -> returns (k a) Q) -> returns (bind m k) Q.
Proof.
  intros Hm Hk w w' b. unfold bind.
  destruct (m w) as [w1 [a|e]] eqn:Hmw; [|discriminate].
  apply (Hk a (Hm w w1 a Hmw)).
Qed.

Lemma lacks_k_append (a b : string) :
  lacks_k (a +:+ b) = lacks_k a && lacks_k b.
Proof.
  induction a as [|c a IH]; [reflexivity|].
  rewrite append_cons. cbn [lacks_k]. now rewrite IH, andb_assoc.
Qed.

Lemma lacks_k_no_kids_item (s : string) :
  lacks_k s = true -> str_contains "kids_item" s = false.
Proof.
  induction s as [|c s IH]; [reflexivity|].
  cbn [lacks_k str_contains str_prefix]. intros Hs.
  apply andb_true_iff in Hs. destruct Hs as [Hc Hs].
  rewrite (IH Hs), orb_false_r. rewrite Ascii.eqb_sym.
  now destruct (Ascii.eqb c "k").
Qed.

Lemma lacks_k_uint (u : Decimal.uint) : lacks_k (NilEmpty.string_of_uint u) = true.
Proof. induction u; cbn [NilEmpty.string_of_uint lacks_k]; auto. Qed.

Lemma lacks_k_decimal (z : Z) : lacks_k (decimal z) = true.
Proof.
  unfold decimal, NilZero.string_of_int.
  destruct (Z.to_int z) as [u|u]; unfold NilZero.string_of_uint;
    destruct u; cbn [lacks_k negb andb Ascii.eqb Bool.eqb];
    try reflexivity; apply lacks_k_uint.
Qed.

Section CountFacts.
Context `{Python}.

(** The loop adds one record for each item it removes. *)
Lemma items_loop_lengths (restaurant : json) (items kept : list json)
    (removed : list (json * string)) (all_removed_items : list removal)
    (kept' : list json) (removed' : list (json * string)) (records : list removal) :
  items_loop restaurant items kept removed all_removed_items
  = Ok (kept', removed', records) ->
  length records + length removed = length all_removed_items + length removed'.
Proof.
  revert kept removed all_removed_items.
  induction items as [|item items IH]; intros kept removed recs Hloop.
  - injection Hloop as _ <- <-. lia.
  - cbn [items_loop] in Hloop.
    destruct (should_remove item) as [[[|] why]|e]; cbn [bind_result] in Hloop;
      [| exact (IH _ _ _ Hloop) | discriminate].
    destruct (py_getitem item "name") as [item_name|e];
      cbn [bind_result] in Hloop; [|discriminate].
    apply IH in Hloop. rewrite !length_app in Hloop. cbn [length] in Hloop. lia.
Qed.

Lemma file_body_counts (apply : bool) (filepath : string)
    (acc : nat * nat * list removal) :
  counts_agree acc -> returns (file_body apply filepath acc) counts_agree.
Proof.
  destruct acc as [[total_removed total_kept] all_removed_items].
  unfold counts_agree. cbn [fst snd]. intros Hacc. unfold file_body.
  do 6 (eapply returns_bind; [apply returns_true | intros ? _]).
  eapply returns_bind.
  - apply returns_lift. intros r Hr. exact (conj Hr I).
  - intros [[kept removed] records] [Hloop _].
    do 2 (eapply returns_bind; [apply returns_true | intros ? _]).
    apply returns_ret. cbn [fst snd].
    apply items_loop_lengths in Hloop. cbn [length] in Hloop. lia.
Qed.

Lemma files_loop_counts (apply : bool) (files : list string)
    (acc : nat * nat * list removal) :
  counts_agree acc -> returns (files_loop apply files acc) counts_agree.
Proof.
  revert acc. induction files as [|filepath files IH]; intros acc Hacc.
  - now apply returns_ret.
  - cbn [files_loop]. eapply returns_bind; [now apply file_body_counts|].
    intros acc' Hacc'. now apply IH.
Qed.

(** A removal reason mentions [kids_item] exactly when the kids rule fired. *)
Lemma reason_mentions_kids_item (d : list (string * json)) (nm cat why : string)
    (calories : json) :
  menu_item d nm cat calories ->
  should_remove (JObj d) = Ok (true, why) ->
  str_contains "kids_item" why = kids_matchb nm cat.
Proof.
  intros Hitem. rewrite (should_remove_menu_item d nm cat calories Hitem).
  destruct (kids_matchb nm cat).
  - intros [= <-]. apply str_contains_spec.
    exists ""%string, (" (cal=" +:+ py_str calories +:+ ")"). reflexivity.
  - destruct calories as [|b|z|s|l|o]; try discriminate; cbn [py_le_int bind_result].
    + destruct ((if b then 1 else 0) <=? CALORIE_THRESHOLD)%Z; [|discriminate].
      intros [= <-]. apply lacks_k_no_kids_item. now destruct b.
    + destruct (z <=? CALORIE_THRESHOLD)%Z; [|discriminate].
      intros [= <-]. apply lacks_k_no_kids_item.
      rewrite !lacks_k_append. cbn [py_str]. now rewrite lacks_k_decimal.
Qed.

End CountFacts.

(** ** The classifier: claims C1 to C4 *)

(** C1: a MenuItem whose lower-cased name or lower-cased category contains one
    of the kids patterns as a substring is removed, with the reason
    [kids_item (cal=<calories>)], where [<calories>] is the item's calorie
    value, 999 when absent. *)
Theorem kids_item_removed `{Python} (d : list (string * json)) (nm cat : string)
    (calories : json) :
  menu_item d nm cat calories ->
  kids_match nm cat ->
  should_remove (JObj d) = Ok (true, "kids_item (cal=" +:+ py_str calories +:+ ")").
Proof.
  intros Hitem Hkids. rewrite (should_remove_menu_item d nm cat calories Hitem).
  apply kids_matchb_spec in Hkids. now rewrite Hkids.
Qed.

Lemma kids_item_removed_witness :
  @menu_item kids_meal "Mini Tacos" "Kids Menu" (JInt 999) /\
  @kids_match example_python "Mini Tacos" "Kids Menu" /\
  @should_remove example_python (JObj kids_meal) = Ok (true, "kids_item (cal=999)"%string).
Proof.
  assert (Hitem : @menu_item kids_meal "Mini Tacos" "Kids Menu" (JInt 999)).
  { split; [reflexivity | reflexivity | exists []; split; reflexivity]. }
  assert (Hkids : @kids_match example_python "Mini Tacos" "Kids Menu").
  { apply kids_matchb_spec. vm_compute. reflexivity. }
  split; [exact Hitem | split; [exact Hkids |]].
  exact (@kids_item_removed example_python kids_meal "Mini Tacos" "Kids Menu"
           (JInt 999) Hitem Hkids).
Defined.

(** C2: a MenuItem that matches no kids pattern and whose calorie value is at
    most 100 is removed, with the reason [low_cal (<calories> cal)]. *)
Theorem low_cal_removed `{Python} (d : list (string * json)) (nm cat : string)
    (c : Z) :
  menu_item d nm cat (JInt c) ->
  ~ kids_match nm cat ->
  (c <= 100)%Z ->
  should_remove (JObj d) = Ok (true, "low_cal (" +:+ decimal c +:+ " cal)").
Proof.
  intros Hitem Hkids Hc. rewrite (should_remove_menu_item d nm cat (JInt c) Hitem).
  destruct (kids_matchb nm cat) eqn:Hb.
  - exfalso. apply Hkids. now apply kids_matchb_spec.
  - cbn [py_le_int bind_result py_str]. unfold CALORIE_THRESHOLD.
    now rewrite (proj2 (Z.leb_le c 100) Hc).
Qed.

Lemma low_cal_removed_witness :
  @menu_item fries "Side of Fries" "" (JInt 80) /\
  ~ @kids_match example_python "Side of Fries" "" /\
  (80 <= 100)%Z /\
  @should_remove example_python (JObj fries) = Ok (true, "low_cal (80 cal)"%string).
Proof.
  assert (Hitem : @menu_item fries "Side of Fries" "" (JInt 80)).
  { split; [reflexivity | reflexivity |].
    exists [("calories", JInt 80)]. split; reflexivity. }
  assert (Hkids : ~ @kids_match example_python "Side of Fries" "").
  { intros Hk. apply kids_matchb_spec in Hk. vm_compute in Hk. discriminate. }
  assert (Hc : (80 <= 100)%Z) by lia.
  split; [exact Hitem | split; [exact Hkids | split; [exact Hc |]]].
  exact (@low_cal_removed example_python fries "Side of Fries" "" 80 Hitem Hkids Hc).
Defined.

(** C3: on a MenuItem with an integer calorie value the removal decision is
    the disjunction of two independent predicates: a kids pattern ([kid's],
    [kids], [kid ] with its space, [children], [kiddie]) occurs in the
    lower-cased name or category, or the calorie value is at most 100.  An item
    satisfying neither is kept with the empty reason.  Applying the calorie
    rule before the kids rule changes the reason of an item that satisfies
    both, and never the decision. *)
Theorem decision_is_disjunction `{Python} (d : list (string * json))
    (nm cat : string) (c : Z) :
  menu_item d nm cat (JInt c) ->
  let kids :=
    exists pattern : string,
      In pattern ["kid's"; "kids"; "kid "; "children"; "kiddie"]%string /\
      (is_substring pattern (str_lower nm) \/ is_substring pattern (str_lower cat)) in
  (kids ->
   should_remove (JObj d) = Ok (true, "kids_item (cal=" +:+ decimal c +:+ ")")) /\
  (~ kids -> (c <= 100)%Z ->
   should_remove (JObj d) = Ok (true, "low_cal (" +:+ decimal c +:+ " cal)")) /\
  (~ kids -> (100 < c)%Z -> should_remove (JObj d) = Ok (false, ""%string)) /\
  ((c <= 100)%Z ->
   should_remove_low_first (JObj d)
   = Ok (true, "low_cal (" +:+ decimal c +:+ " cal)")) /\
  ((100 < c)%Z -> kids ->
   should_remove_low_first (JObj d)
   = Ok (true, "kids_item (cal=" +:+ decimal c +:+ ")")) /\
  ((100 < c)%Z -> ~ kids ->
   should_remove_low_first (JObj d) = Ok (false, ""%string)) /\
  exists (remove : bool) (reason reason' : string),
    should_remove (JObj d) = Ok (remove, reason) /\
    should_remove_low_first (JObj d) = Ok (remove, reason') /\
    (remove = true <-> kids \/ (c <= 100)%Z) /\
    (remove = false -> reason = ""%string /\ reason' = ""%string).
Proof.
  intros Hitem kids.
  assert (Hkids : kids <-> kids_matchb nm cat = true).
  { symmetry. exact (kids_matchb_spec nm cat). }
  pose proof (should_remove_menu_item d nm cat (JInt c) Hitem) as Hsr.
  cbn [py_le_int bind_result py_str] in Hsr.
  assert (Hlf : should_remove_low_first (JObj d) =
                if (c <=? CALORIE_THRESHOLD)%Z
                then Ok (true, "low_cal (" +:+ decimal c +:+ " cal)")
                else if kids_matchb nm cat
                     then Ok (true, "kids_item (cal=" +:+ decimal c +:+ ")")
                     else Ok (false, ""%string)).
  { destruct Hitem as [Hn Hc (macros & Hm & Hcal)].
    unfold should_remove_low_first, py_get. cbn [bind_result].
    rewrite Hn, Hc, Hm. cbn [bind_result py_lower]. rewrite Hcal.
    cbn [py_le_int bind_result py_str]. rewrite kids_loop_existsb.
    fold (kids_matchb nm cat).
    destruct (c <=? CALORIE_THRESHOLD)%Z, (kids_matchb nm cat); reflexivity. }
  rewrite Hsr, Hlf. unfold CALORIE_THRESHOLD.
  destruct (kids_matchb nm cat) eqn:Hb.
  - assert (Hk : kids) by now apply Hkids.
    destruct (Z.leb_spec c 100) as [Hc | Hc].
    + repeat split; try reflexivity; try (intros; lia); try (intros; tauto).
      exists true. do 2 eexists. repeat split; try reflexivity; try discriminate.
      now left.
    + repeat split; try reflexivity; try (intros; lia); try (intros; tauto).
      exists true. do 2 eexists. repeat split; try reflexivity; try discriminate.
      now left.
  - assert (Hk : ~ kids) by (intros Hk; apply Hkids in Hk; discriminate).
    destruct (Z.leb_spec c 100) as [Hc | Hc].
    + repeat split; try reflexivity; try (intros; lia); try (intros; tauto).
      exists true. do 2 eexists. repeat split; try reflexivity; try discriminate.
      now right.
    + repeat split; try reflexivity; try (intros; lia); try (intros; tauto).
      exists false. do 2 eexists. repeat split; try reflexivity; try discriminate.
      intros [Hk' | Hc']; [tauto | lia].
Qed.

Lemma decision_is_disjunction_witness :
  (@menu_item bowl "Grilled Chicken Bowl" "" (JInt 620) /\
   @should_remove example_python (JObj bowl) = Ok (false, ""%string) /\
   @should_remove_low_first example_python (JObj bowl) = Ok (false, ""%string)) /\
  (@menu_item fries "Side of Fries" "" (JInt 80) /\
   @should_remove example_python (JObj fries) = Ok (true, "low_cal (80 cal)"%string) /\
   @should_remove_low_first example_python (JObj fries)
   = Ok (true, "low_cal (80 cal)"%string)) /\
  (@menu_item burger "Kid's Burger" "" (JInt 350) /\
   @should_remove example_python (JObj burger)
   = Ok (true, "kids_item (cal=350)"%string) /\
   @should_remove_low_first example_python (JObj burger)
   = Ok (true, "kids_item (cal=350)"%string)) /\
  (@menu_item kids_juice "Kids Juice" "" (JInt 60) /\
   @should_remove example_python (JObj kids_juice)
   = Ok (true, "kids_item (cal=60)"%string) /\
   @should_remove_low_first example_python (JObj kids_juice)
   = Ok (true, "low_cal (60 cal)"%string)).
Proof.
  assert (Hbowl : @menu_item bowl "Grilled Chicken Bowl" "" (JInt 620)).
  { split; [reflexivity | reflexivity |].
    exists [("calories", JInt 620)]. split; reflexivity. }
  assert (Hfries : @menu_item fries "Side of Fries" "" (JInt 80)).
  { split; [reflexivity | reflexivity |].
    exists [("calories", JInt 80)]. split; reflexivity. }
  assert (Hburger : @menu_item burger "Kid's Burger" "" (JInt 350)).
  { split; [reflexivity | reflexivity |].
    exists [("calories", JInt 350)]. split; reflexivity. }
  assert (Hjuice : @menu_item kids_juice "Kids Juice" "" (JInt 60)).
  { split; [reflexivity | reflexivity |].
    exists [("calories", JInt 60)]. split; reflexivity. }
  assert (Hno_bowl :
    ~ exists pattern : string,
        In pattern ["kid's"; "kids"; "kid "; "children"; "kiddie"]%string /\
        (is_substring pattern (ascii_lower "Grilled Chicken Bowl") \/
         is_substring pattern (ascii_lower ""))).
  { intros (p & Hin & Hsub). cbn [In] in Hin.
    destruct Hin as [<- | [<- | [<- | [<- | [<- | []]]]]];
      destruct Hsub as [Hs | Hs]; apply str_contains_spec in Hs;
      vm_compute in Hs; discriminate Hs. }
  assert (Hno_fries :
    ~ exists pattern : string,
        In pattern ["kid's"; "kids"; "kid "; "children"; "kiddie"]%string /\
        (is_substring pattern (ascii_lower "Side of Fries") \/
         is_substring pattern (ascii_lower ""))).
  { intros (p & Hin & Hsub). cbn [In] in Hin.
    destruct Hin as [<- | [<- | [<- | [<- | [<- | []]]]]];
      destruct Hsub as [Hs | Hs]; apply str_contains_spec in Hs;
      vm_compute in Hs; discriminate Hs. }
  assert (Hyes_burger :
    exists pattern : string,
      In pattern ["kid's"; "kids"; "kid "; "children"; "kiddie"]%string /\
      (is_substring pattern (ascii_lower "Kid's Burger") \/
       is_substring pattern (ascii_lower ""))).
  { exists "kid's"%string. split; [now left|]. left.
    exists ""%string, " burger"%string. reflexivity. }
  assert (Hyes_juice :
    exists pattern : string,
      In pattern ["kid's"; "kids"; "kid "; "children"; "kiddie"]%string /\
      (is_substring pattern (ascii_lower "Kids Juice") \/
       is_substring pattern (ascii_lower ""))).
  { exists "kids"%string. split; [right; now left|]. left.
    exists ""%string, " juice"%string. reflexivity. }
  pose proof (@decision_is_disjunction example_python bowl "Grilled Chicken Bowl" ""
                620 Hbowl) as Tbowl.
  pose proof (@decision_is_disjunction example_python fries "Side of Fries" ""
                80 Hfries) as Tfries.
  pose proof (@decision_is_disjunction example_python burger "Kid's Burger" ""
                350 Hburger) as Tburger.
  pose proof (@decision_is_disjunction example_python kids_juice "Kids Juice" ""
                60 Hjuice) as Tjuice.
  cbv zeta in Tbowl, Tfries, Tburger, Tjuice.
  destruct Tbowl as (_ & _ & Bkeep & _ & _ & Bfirst & _).
  destruct Tfries as (_ & Flow & _ & Ffirst & _).
  destruct Tburger as (Ukids & _ & _ & _ & Ufirst & _).
  destruct Tjuice as (Jkids & _ & _ & Jfirst & _).
  split; [|split; [|split]].
  - split; [exact Hbowl|]. split.
    + apply (Bkeep Hno_bowl). lia.
    + apply Bfirst; [lia | exact Hno_bowl].
  - split; [exact Hfries|]. split.
    + apply (Flow Hno_fries). lia.
    + apply Ffirst. lia.
  - split; [exact Hburger|]. split.
    + exact (Ukids Hyes_burger).
    + apply Ufirst; [lia | exact Hyes_burger].
  - split; [exact Hjuice|]. split.
    + exact (Jkids Hyes_juice).
    + apply Jfirst. lia.
Defined.

(** C4: when the macro block or its calories entry is absent the calorie value
    is 999, above the threshold, so the item is removed as a kids item or kept,
    and never with a [low_cal] reason. *)
Theorem absent_calories_not_low_cal `{Python} (d : list (string * json))
    (nm cat : string) :
  dict_get d "name" (JStr "") = JStr nm ->
  dict_get d "category" (JStr "") = JStr cat ->
  calories_absent d ->
  menu_item d nm cat (JInt 999) /\
  (CALORIE_THRESHOLD < 999)%Z /\
  should_remove (JObj d) =
    (if kids_matchb nm cat
     then Ok (true, "kids_item (cal=999)"%string)
     else Ok (false, ""%string)) /\
  (forall (remove : bool) (reason : string),
     should_remove (JObj d) = Ok (remove, reason) ->
     str_prefix "low_cal" reason = false).
Proof.
  intros Hn Hc Habs.
  assert (Hitem : menu_item d nm cat (JInt 999)).
  { split; [exact Hn | exact Hc |].
    destruct Habs as [Hm | (macros & Hm & Hcal)].
    - exists []. unfold dict_get. rewrite Hm. split; reflexivity.
    - exists macros. unfold dict_get. rewrite Hm, Hcal. split; reflexivity. }
  assert (Hsr : should_remove (JObj d) =
                if kids_matchb nm cat
                then Ok (true, "kids_item (cal=999)"%string)
                else Ok (false, ""%string)).
  { rewrite (should_remove_menu_item d nm cat (JInt 999) Hitem).
    destruct (kids_matchb nm cat); reflexivity. }
  split; [exact Hitem | split; [reflexivity | split; [exact Hsr |]]].
  intros remove reason. rewrite Hsr.
  destruct (kids_matchb nm cat); intros [= <- <-]; reflexivity.
Qed.

Lemma absent_calories_not_low_cal_witness :
  dict_get kids_meal "name" (JStr "") = JStr "Mini Tacos" /\
  dict_get kids_meal "category" (JStr "") = JStr "Kids Menu" /\
  calories_absent kids_meal /\
  @should_remove example_python (JObj kids_meal)
  = Ok (true, "kids_item (cal=999)"%string).
Proof.
  assert (Hn : dict_get kids_meal "name" (JStr "") = JStr "Mini Tacos") by reflexivity.
  assert (Hc : dict_get kids_meal "category" (JStr "") = JStr "Kids Menu")
    by reflexivity.
  assert (Habs : calories_absent kids_meal) by (left; reflexivity).
  split; [exact Hn | split; [exact Hc | split; [exact Habs |]]].
  exact (proj1 (proj2 (proj2 (@absent_calories_not_low_cal example_python kids_meal
                                "Mini Tacos" "Kids Menu" Hn Hc Habs)))).
Defined.

(** ** The file processor: claims C5 and C6 *)

(** C5: in apply mode, a menu file the run reaches is left holding its
    original document with the item list replaced by exactly the items the
    classifier keeps, in their original order and unchanged; nothing else in
    the document changes.  (A file with nothing to remove is not rewritten:
    its list is already the filtered one.) *)
Theorem apply_writes_kept_items `{Python} (argv before after : list string)
    (filepath sql_file text : string) (d : list (string * json))
    (items : list json) (w : world) :
  APPLY argv = true ->
  NoDup (before ++ filepath :: after) ->
  sql_file <> filepath ->
  (forall g, In g before -> well_formed_file (fs w) g) ->
  fs w !! filepath = Some text ->
  json_load text = Some (JObj d) ->
  dict_get d "items" (JArr []) = JArr items ->
  Forall classifiable items ->
  fs (fst (process_files argv (before ++ filepath :: after) sql_file w)) !! filepath =
    Some (if nonempty (removed_of items)
          then json_dump (JObj (dict_set "items" (JArr (List.filter is_kept items)) d))
          else text) /\
  dict_get (dict_set "items" (JArr (List.filter is_kept items)) d) "items" (JArr [])
    = JArr (List.filter is_kept items) /\
  (forall k, k <> "items"%string ->
     dict_lookup k (dict_set "items" (JArr (List.filter is_kept items)) d)
     = dict_lookup k d) /\
  (nonempty (removed_of items) = false -> List.filter is_kept items = items) /\
  (forall item,
     In item (List.filter is_kept items) <->
     In item items /\ should_remove item = Ok (false, ""%string)) /\
  sublist (List.filter is_kept items) items.
Proof.
  intros Happly Hnd Hsql Hwf Hfile Hload Hitems Hall.
  split; [|split; [apply dict_get_set|split; [intros k Hk; now apply dict_lookup_set_other|
    split; [|split; [apply filter_In_kept | apply filter_sublist]]]]].
  - rewrite process_files_run, Happly.
    set (w1 := World (fs w) (stdout w ++ header_lines argv (before ++ filepath :: after))).
    apply NoDup_app in Hnd. destruct Hnd as (Hnd_before & Hdisj & Hnd_rest).
    apply NoDup_cons in Hnd_rest. destruct Hnd_rest as [Hfresh Hnd_after].
    destruct (files_loop_ok true before (0, 0, []) w1 Hnd_before Hwf)
      as (w2 & [[total_removed total_kept] all_removed_items] & Hbefore).
    assert (Hfile2 : fs w2 !! filepath = Some text).
    { rewrite <- Hfile.
      pose proof (frame_files_loop true before (0, 0, []) w1 filepath) as Hframe.
      rewrite Hbefore in Hframe. apply Hframe.
      intros [_ Hin]. apply (Hdisj filepath); [now apply list_elem_of_In | left]. }
    destruct (file_body_ok true filepath text total_removed total_kept
                all_removed_items w2 d items Hfile2 Hload Hitems Hall)
      as [out Hbody].
    set (w3 := World _ _) in Hbody.
    set (acc3 := (total_removed + _, _, _)) in Hbody.
    assert (Hrun :
      bind (files_loop true (before ++ filepath :: after) (0, 0, []))
           (report true sql_file) w1 =
      bind (files_loop true after acc3) (report true sql_file) w3).
    { unfold bind at 1. rewrite files_loop_app.
      rewrite (bind_ok _ _ _ _ _ Hbefore). cbn [files_loop].
      rewrite (bind_ok _ _ _ _ _ Hbody). reflexivity. }
    rewrite Hrun.
    assert (Hframe : frame (fun p => p = sql_file \/ In p after)
                       (bind (files_loop true after acc3) (report true sql_file))).
    { apply frame_bind.
      - eapply frame_weaken; [|apply frame_files_loop]. intros p [_ Hp]. now right.
      - intros acc. eapply frame_weaken; [|apply frame_report].
        intros p Hp. now left. }
    rewrite (Hframe w3 filepath).
    + subst w3. cbn [fs andb].
      destruct (nonempty (removed_of items)); [apply lookup_insert_eq | exact Hfile2].
    + intros [Heq | Hin]; [now apply Hsql | apply Hfresh; now apply list_elem_of_In].
  - intros Hnone. apply nothing_removed_all_kept; [exact Hall|].
    now destruct (removed_of items).
Qed.

Lemma apply_writes_kept_items_witness :
  APPLY ["clean-menu-data.py"; "--apply"]%string = true /\
  fs (fst (@process_files example_python ["clean-menu-data.py"; "--apply"]%string
             ([] ++ joes_path :: [diner_path]) sql_path example_world))
    !! joes_path
  = Some (@json_dump example_python
            (JObj (dict_set "items" (JArr [JObj bowl])
                     [("restaurant_name", JStr "Joe's");
                      ("items", JArr [JObj burger; JObj fries; JObj bowl])]))).
Proof.
  split; [reflexivity|].
  refine (proj1 (@apply_writes_kept_items example_python
                   ["clean-menu-data.py"; "--apply"]%string [] [diner_path]
                   joes_path sql_path "joes"
                   [("restaurant_name", JStr "Joe's");
                    ("items", JArr [JObj burger; JObj fries; JObj bowl])]
                   [JObj burger; JObj fries; JObj bowl] example_world
                   _ _ _ _ _ _ _ _)).
  - reflexivity.
  - cbn [app]. apply NoDup_cons. split.
    + intros Hin. apply list_elem_of_In in Hin. destruct Hin as [Heq | []].
      discriminate Heq.
    + apply NoDup_singleton.
  - discriminate.
  - intros g [].
  - vm_compute. reflexivity.
  - reflexivity.
  - reflexivity.
  - repeat constructor; unfold classifiable; vm_compute; eauto.
Defined.

(** C6: every item of the kept list produced by one pass of the item loop is
    classified keep, so a second pass over it keeps all of it, removes nothing
    and records nothing; a file whose document carries that list is not
    rewritten by an apply pass. *)
Theorem second_pass_removes_nothing `{Python} (restaurant : json)
    (items kept : list json) (removed : list (json * string))
    (all_removed_items records : list removal) :
  items_loop restaurant items [] [] all_removed_items = Ok (kept, removed, records) ->
  Forall (fun item => should_remove item = Ok (false, ""%string)) kept /\
  (forall (restaurant' : json) (all' : list removal),
     items_loop restaurant' kept [] [] all' = Ok (kept, [], all')) /\
  (forall (filepath text : string) (d : list (string * json))
          (total_removed total_kept : nat) (all' : list removal) (w : world),
     fs w !! filepath = Some text ->
     json_load text = Some (JObj d) ->
     dict_get d "items" (JArr []) = JArr kept ->
     file_body true filepath (total_removed, total_kept, all') w =
     (w, Ok (total_removed, total_kept + length kept, all'))).
Proof.
  intros Hloop.
  pose proof (items_loop_classifiable _ _ _ _ _ _ Hloop) as Hall.
  rewrite (items_loop_ok _ _ _ _ _ Hall) in Hloop. cbn [app] in Hloop.
  injection Hloop as Hkept _ _.
  assert (Hk : Forall (fun item => is_kept item = true) kept).
  { rewrite <- Hkept. apply filter_is_kept. }
  assert (Hc : Forall classifiable kept).
  { eapply Forall_impl; [exact Hk|]. apply is_kept_classifiable. }
  split; [|split].
  - eapply Forall_impl; [exact Hk|]. intros item. apply is_kept_spec.
  - intros restaurant' all'. rewrite (items_loop_ok _ _ _ _ _ Hc).
    rewrite (filter_all_kept _ Hk), (removed_of_kept _ Hk), (records_of_kept _ _ Hk).
    cbn [app]. now rewrite app_nil_r.
  - intros filepath text d total_removed total_kept all' w Hfile Hload Hitems.
    unfold file_body. run_io. rewrite Hfile, Hload. cbn [py_get]. rewrite Hitems.
    cbn [py_len py_iter]. rewrite (items_loop_ok _ _ _ _ _ Hc).
    rewrite (filter_all_kept _ Hk), (removed_of_kept _ Hk), (records_of_kept _ _ Hk).
    cbn [app nonempty andb length]. rewrite Nat.add_0_r, app_nil_r.
    now destruct w.
Qed.

Lemma second_pass_removes_nothing_witness :
  @items_loop example_python (JStr "Joe's") [JObj burger; JObj fries; JObj bowl]
     [] [] []
  = Ok ([JObj bowl],
        [(JObj burger, "kids_item (cal=350)"%string);
         (JObj fries, "low_cal (80 cal)"%string)],
        [Removal (JStr "Joe's") (JStr "Kid's Burger") "kids_item (cal=350)";
         Removal (JStr "Joe's") (JStr "Side of Fries") "low_cal (80 cal)"]) /\
  @items_loop example_python (JStr "Joe's") [JObj bowl] [] [] [] = Ok ([JObj bowl], [], []).
Proof.
  assert (Hfirst :
    @items_loop example_python (JStr "Joe's") [JObj burger; JObj fries; JObj bowl]
       [] [] []
    = Ok ([JObj bowl],
          [(JObj burger, "kids_item (cal=350)"%string);
           (JObj fries, "low_cal (80 cal)"%string)],
          [Removal (JStr "Joe's") (JStr "Kid's Burger") "kids_item (cal=350)";
           Removal (JStr "Joe's") (JStr "Side of Fries") "low_cal (80 cal)"]))
    by (vm_compute; reflexivity).
  split; [exact Hfirst|].
  exact (proj1 (proj2 (@second_pass_removes_nothing example_python _ _ _ _ _ _ Hfirst))
           (JStr "Joe's") []).
Defined.

(** ** Dry runs: claim C7 *)

(** A dry run over the Joe's menu leaves a SQL file behind that was not there
    before: a file write is performed and the disk is not what it was. *)
Lemma dry_run_writes_sql_file :
  APPLY ["clean-menu-data.py"]%string = false /\
  snd (@process_files example_python ["clean-menu-data.py"]%string [joes_path]
         sql_path example_world) = Ok tt /\
  fs example_world !! sql_path = None /\
  fs (fst (@process_files example_python ["clean-menu-data.py"]%string [joes_path]
             sql_path example_world)) !! sql_path
  = Some (file_sql_header 2
          +:+ file_sql_body
                [Removal (JStr "Joe's") (JStr "Kid's Burger") "kids_item (cal=350)"]
                [condition "Joe's" "Kid's Burger"]) /\
  fs (fst (@process_files example_python ["clean-menu-data.py"]%string [joes_path]
             sql_path example_world))
  <> fs example_world.
Proof.
  assert (Hafter :
    fs (fst (@process_files example_python ["clean-menu-data.py"]%string [joes_path]
               sql_path example_world)) !! sql_path
    = Some (file_sql_header 2
            +:+ file_sql_body
                  [Removal (JStr "Joe's") (JStr "Kid's Burger") "kids_item (cal=350)"]
                  [condition "Joe's" "Kid's Burger"]))
    by (vm_compute; reflexivity).
  split; [reflexivity|]. split; [vm_compute; reflexivity|].
  split; [vm_compute; reflexivity|]. split; [exact Hafter|].
  intros Hsame. rewrite Hsame in Hafter. vm_compute in Hafter. discriminate Hafter.
Qed.

(** C7, as the code has it: in dry-run mode no menu file is written.  Whether
    the run completes or aborts, every file other than the SQL output file
    holds afterwards exactly what it held before; the SQL output file is
    written by every run that completes. *)
Theorem dry_run_keeps_menu_files `{Python} (argv files : list string)
    (sql_file : string) (w : world) :
  APPLY argv = false ->
  (forall p : string,
     p <> sql_file ->
     fs (fst (process_files argv files sql_file w)) !! p = fs w !! p) /\
  (snd (process_files argv files sql_file w) = Ok tt ->
   exists text : string,
     fs (fst (process_files argv files sql_file w)) = <[sql_file := text]> (fs w)).
Proof.
  intros Hdry. split.
  - intros p Hp. apply frame_process_files. rewrite Hdry.
    intros [Heq | [Habs _]]; [now apply Hp | discriminate].
  - rewrite process_files_run, Hdry.
    set (w1 := World _ _).
    pose proof (frame_files_loop false files (0, 0, []) w1) as Hframe.
    unfold bind.
    destruct (files_loop false files (0, 0, []) w1)
      as [w2 [[[total_removed total_kept] all_removed_items]|e]]; [|discriminate].
    cbn [fst] in Hframe.
    assert (Hfs : fs w2 = fs w).
    { apply map_eq. intros p. rewrite Hframe; [reflexivity|]. now intros [? _]. }
    destruct (conditions_loop (kids_of all_removed_items) []) as [conditions|e] eqn:Hc.
    + destruct (report_run false sql_file total_removed total_kept all_removed_items
                  conditions w2 Hc) as (summary & console & Hrun & _).
      rewrite Hrun. cbn [fst snd fs]. intros _. rewrite Hfs. now eexists.
    + destruct (report_raise false sql_file total_removed total_kept all_removed_items
                  e w2 Hc) as (out & Hrun).
      rewrite Hrun. discriminate.
Qed.

Lemma dry_run_keeps_menu_files_witness :
  APPLY ["clean-menu-data.py"]%string = false /\
  fs (fst (@process_files example_python ["clean-menu-data.py"]%string
             [diner_path; joes_path] sql_path example_world)) !! joes_path
  = fs example_world !! joes_path.
Proof.
  assert (Hdry : APPLY ["clean-menu-data.py"]%string = false) by reflexivity.
  split; [exact Hdry|].
  apply (proj1 (@dry_run_keeps_menu_files example_python ["clean-menu-data.py"]%string
                  [diner_path; joes_path] sql_path example_world Hdry)).
  discriminate.
Defined.

(** ** The SQL: claims C8 and C9 *)

(** On the dry run over the Joe's menu the SQL printed on the console is not
    the text of the SQL file after a header: the console text does not occur
    in the file at all. *)
Lemma console_sql_is_not_file_sql :
  exists (before console : list string) (text : string),
    stdout (fst (@process_files example_python ["clean-menu-data.py"]%string
                   [joes_path] sql_path example_world))
    = before ++ console ++ [saved_line] /\
    stream console
    = console_sql
        [Removal (JStr "Joe's") (JStr "Kid's Burger") "kids_item (cal=350)"]
        [condition "Joe's" "Kid's Burger"] /\
    fs (fst (@process_files example_python ["clean-menu-data.py"]%string
               [joes_path] sql_path example_world)) !! sql_path
    = Some text /\
    ~ (exists header : string, text = header +:+ stream console).
Proof.
  exists (firstn 23 (stdout (fst (@process_files example_python
                                    ["clean-menu-data.py"]%string [joes_path]
                                    sql_path example_world)))).
  exists (firstn 12 (skipn 23 (stdout (fst (@process_files example_python
                                             ["clean-menu-data.py"]%string
                                             [joes_path] sql_path example_world))))).
  eexists.
  split; [vm_compute; reflexivity|]. split; [vm_compute; reflexivity|].
  split; [vm_compute; reflexivity|].
  intros [header Hheader].
  assert (Hin : str_contains
                  (stream (firstn 12 (skipn 23 (stdout (fst (@process_files
                     example_python ["clean-menu-data.py"]%string [joes_path]
                     sql_path example_world))))))
                  (header +:+ stream (firstn 12 (skipn 23 (stdout (fst
                     (@process_files example_python ["clean-menu-data.py"]%string
                        [joes_path] sql_path example_world))))))
                = true).
  { apply str_contains_spec. exists header, ""%string. now rewrite append_empty_r. }
  rewrite <- Hheader in Hin. vm_compute in Hin. discriminate Hin.
Qed.

(** C8, as the code has it: in either mode a run that completes prints and
    writes the same three statements in the same order: the kids DELETE over
    the conditions joined with OR, left out when there is no kids record, then
    the threshold DELETE, then the verification SELECT.  The two texts are not
    the same: their comment lines differ, only the console says that no kids
    item was found, the semicolon closing the kids DELETE is on a line of its
    own on the console and directly after the last condition in the file, and
    the file starts with a header that gives the total removed count. *)
Theorem generated_sql `{Python} (argv files : list string) (sql_file : string)
    (w w' : world) :
  process_files argv files sql_file w = (w', Ok tt) ->
  exists (w1 : world) (total_removed total_kept : nat)
         (all_removed_items : list removal) (conditions before console : list string),
    files_loop (APPLY argv) files (0, 0, [])
      (World (fs w) (stdout w ++ header_lines argv files))
    = (w1, Ok (total_removed, total_kept, all_removed_items)) /\
    total_removed = length all_removed_items /\
    conditions_loop (kids_of all_removed_items) [] = Ok conditions /\
    stdout w' = before ++ console ++ [saved_line] /\
    stream console = console_sql (kids_of all_removed_items) conditions /\
    fs w' = <[sql_file := file_sql_header total_removed
                          +:+ file_sql_body (kids_of all_removed_items) conditions]>
              (fs w1).
Proof.
  rewrite process_files_run. unfold bind.
  destruct (files_loop (APPLY argv) files (0, 0, []) _)
    as [w1 [[[total_removed total_kept] all_removed_items]|e]] eqn:Hloop;
    [|discriminate].
  destruct (conditions_loop (kids_of all_removed_items) []) as [conditions|e] eqn:Hc.
  - destruct (report_run (APPLY argv) sql_file total_removed total_kept
                all_removed_items conditions w1 Hc)
      as (summary & console & Hrun & Hstream).
    rewrite Hrun. intros [= <-].
    exists w1, total_removed, total_kept, all_removed_items, conditions,
      (stdout w1 ++ summary), console.
    cbn [fs stdout]. rewrite <- !app_assoc.
    pose proof (files_loop_counts (APPLY argv) files (0, 0, []) eq_refl _ _ _ Hloop)
      as Hcount.
    auto 10.
  - destruct (report_raise (APPLY argv) sql_file total_removed total_kept
                all_removed_items e w1 Hc) as (out & Hrun).
    rewrite Hrun. discriminate.
Qed.

Lemma generated_sql_witness :
  @process_files example_python ["clean-menu-data.py"; "--apply"]%string
    [joes_path] sql_path example_world
  = (fst (@process_files example_python ["clean-menu-data.py"; "--apply"]%string
            [joes_path] sql_path example_world), Ok tt) /\
  exists (total_removed : nat) (kids_items : list removal)
         (conditions before console : list string),
    stdout (fst (@process_files example_python
                   ["clean-menu-data.py"; "--apply"]%string [joes_path] sql_path
                   example_world))
    = before ++ console ++ [saved_line] /\
    stream console = console_sql kids_items conditions /\
    fs (fst (@process_files example_python ["clean-menu-data.py"; "--apply"]%string
               [joes_path] sql_path example_world)) !! sql_path
    = Some (file_sql_header total_removed +:+ file_sql_body kids_items conditions).
Proof.
  assert (Hrun :
    @process_files example_python ["clean-menu-data.py"; "--apply"]%string
      [joes_path] sql_path example_world
    = (fst (@process_files example_python ["clean-menu-data.py"; "--apply"]%string
              [joes_path] sql_path example_world), Ok tt)).
  { apply pair_of_snd. vm_compute. reflexivity. }
  split; [exact Hrun|].
  destruct (@generated_sql example_python _ _ _ _ _ Hrun)
    as (w1 & total_removed & total_kept & all_removed_items & conditions & before
        & console & _ & _ & _ & Hout & Hstream & Hfs).
  exists total_removed, (@kids_of all_removed_items), conditions, before, console.
  split; [exact Hout|]. split; [exact Hstream|].
  rewrite Hfs. apply lookup_insert_eq.
Defined.

(** C9: each condition of the kids DELETE carries the record's restaurant name
    and item name with every single quote written twice and every other
    character as it is; records whose two names are strings always yield their
    conditions, one per record and in order. *)
Theorem conditions_double_single_quotes :
  (forall (kids_items : list removal) (conditions : list string),
     conditions_loop kids_items [] = Ok conditions ->
     Forall2
       (fun item cond =>
          exists restaurant item_name : string,
            restaurant_name item = JStr restaurant /\
            name item = JStr item_name /\
            cond = ("  (restaurant_name = '" +:+ double_quotes restaurant
                    +:+ "' AND name = '" +:+ double_quotes item_name +:+ "')"))
       kids_items conditions) /\
  (forall pairs : list (string * string * string),
     conditions_loop
       (map (fun '(restaurant, item_name, why) =>
               Removal (JStr restaurant) (JStr item_name) why) pairs) []
     = Ok (map (fun '(restaurant, item_name, _) => condition restaurant item_name)
             pairs)).
Proof.
  split.
  - induction kids_items as [|item rest IH]; intros conditions Hloop.
    + injection Hloop as <-. constructor.
    + destruct item as [r n why].
      cbn [conditions_loop name restaurant_name] in *.
      destruct n as [| | |item_name| |]; try discriminate.
      destruct r as [| | |restaurant| |]; try discriminate.
      cbn [py_replace bind_result app] in Hloop.
      rewrite conditions_loop_acc in Hloop.
      destruct (conditions_loop rest []) as [more|e] eqn:Hrest; [|discriminate].
      cbn [bind_result app] in Hloop. injection Hloop as <-.
      constructor; [|now apply IH].
      exists restaurant, item_name. now rewrite !replace_from_quote.
  - induction pairs as [|[[restaurant item_name] why] rest IH]; [reflexivity|].
    cbn [map conditions_loop name restaurant_name py_replace bind_result app].
    rewrite conditions_loop_acc, IH. cbn [bind_result app].
    unfold condition. now rewrite ?replace_quote, ?replace_from_quote.
Qed.

Lemma conditions_double_single_quotes_witness :
  conditions_loop
    [Removal (JStr "Joe's") (JStr "Kid's Burger") "kids_item (cal=350)"] []
  = Ok ["  (restaurant_name = 'Joe''s' AND name = 'Kid''s Burger')"%string] /\
  Forall2
    (fun item cond =>
       exists restaurant item_name : string,
         restaurant_name item = JStr restaurant /\
         name item = JStr item_name /\
         cond = ("  (restaurant_name = '" +:+ double_quotes restaurant
                 +:+ "' AND name = '" +:+ double_quotes item_name +:+ "')"))
    [Removal (JStr "Joe's") (JStr "Kid's Burger") "kids_item (cal=350)"]
    ["  (restaurant_name = 'Joe''s' AND name = 'Kid''s Burger')"%string].
Proof.
  assert (Hloop :
    conditions_loop
      [Removal (JStr "Joe's") (JStr "Kid's Burger") "kids_item (cal=350)"] []
    = Ok ["  (restaurant_name = 'Joe''s' AND name = 'Kid''s Burger')"%string])
    by (vm_compute; reflexivity).
  split; [exact Hloop|].
  exact (proj1 conditions_double_single_quotes _ _ Hloop).
Defined.

(** ** Items without a name: claim C10 *)

(** C10: [should_remove] reads a missing name as the empty string, but the
    removal record is built from [item['name']]: when the run reaches a file
    whose first item to fail is one the classifier removes and that has no
    [name] key, [process_files] ends in an uncaught [KeyError] for that key. *)
Theorem nameless_removed_item_aborts `{Python} (argv before after : list string)
    (filepath sql_file text : string) (d item : list (string * json))
    (items_before items_after : list json) (why : string) (w : world) :
  NoDup before ->
  ~ In filepath before ->
  (forall g, In g before -> well_formed_file (fs w) g) ->
  fs w !! filepath = Some text ->
  json_load text = Some (JObj d) ->
  dict_get d "items" (JArr []) = JArr (items_before ++ JObj item :: items_after) ->
  Forall classifiable items_before ->
  should_remove (JObj item) = Ok (true, why) ->
  dict_lookup "name" item = None ->
  py_get (JObj item) "name" (JStr "") = Ok (JStr "") /\
  snd (process_files argv (before ++ filepath :: after) sql_file w)
  = Raise (KeyError "name").
Proof.
  intros Hnd Hfresh Hwf Hfile Hload Hitems Hbefore Hsr Hname.
  split; [unfold py_get, dict_get; now rewrite Hname|].
  rewrite process_files_run.
  set (w1 := World (fs w) (stdout w ++ header_lines argv (before ++ filepath :: after))).
  destruct (files_loop_ok (APPLY argv) before (0, 0, []) w1 Hnd Hwf)
    as (w2 & [[total_removed total_kept] all_removed_items] & Hloop).
  assert (Hfile2 : fs w2 !! filepath = Some text).
  { rewrite <- Hfile.
    pose proof (frame_files_loop (APPLY argv) before (0, 0, []) w1 filepath) as Hframe.
    rewrite Hloop in Hframe. apply Hframe. now intros [_ Hin]. }
  assert (Hraise :
    items_loop (dict_get d "restaurant_name" (JStr (basename filepath)))
      (items_before ++ JObj item :: items_after) [] [] all_removed_items
    = Raise (KeyError "name")).
  { apply items_loop_raise; [exact Hbefore|]. rewrite Hsr.
    unfold py_getitem. now rewrite Hname. }
  unfold bind at 1. rewrite files_loop_app.
  rewrite (bind_ok _ _ _ _ _ Hloop). cbn [files_loop].
  rewrite (bind_raise _ _ _ _ _
             (file_body_raise _ _ _ _ _ _ _ _ _ _ Hfile2 Hload Hitems Hraise)).
  reflexivity.
Qed.

Lemma nameless_removed_item_aborts_witness :
  @should_remove example_python (JObj nameless) = Ok (true, "low_cal (50 cal)"%string) /\
  dict_lookup "name" nameless = None /\
  snd (@process_files example_python ["clean-menu-data.py"]%string
         ([joes_path] ++ diner_path :: []) sql_path example_world)
  = Raise (KeyError "name").
Proof.
  assert (Hsr : @should_remove example_python (JObj nameless)
                = Ok (true, "low_cal (50 cal)"%string)) by (vm_compute; reflexivity).
  assert (Hname : dict_lookup "name" nameless = None) by reflexivity.
  split; [exact Hsr|]. split; [exact Hname|].
  refine (proj2 (@nameless_removed_item_aborts example_python
                   ["clean-menu-data.py"]%string [joes_path] [] diner_path sql_path
                   "diner"
                   [("restaurant_name", JStr "Diner");
                    ("items", JArr [JObj bowl; JObj nameless])]
                   nameless [JObj bowl] [] "low_cal (50 cal)" example_world
                   _ _ _ _ _ _ _ Hsr Hname)).
  - apply NoDup_singleton.
  - intros [Heq | []]. discriminate Heq.
  - intros g [<- | []].
    exists "joes"%string,
      [("restaurant_name", JStr "Joe's");
       ("items", JArr [JObj burger; JObj fries; JObj bowl])],
      [JObj burger; JObj fries; JObj bowl].
    split; [vm_compute; reflexivity|]. split; [reflexivity|]. split; [reflexivity|].
    repeat constructor; unfold classifiable; vm_compute; eauto.
  - vm_compute. reflexivity.
  - reflexivity.
  - reflexivity.
  - repeat constructor; unfold classifiable; vm_compute; eauto.
Defined.

(** * Further properties of the script *)

(** ** One file, in terms of what it holds *)

Section ScanFacts.
Context `{Python}.

(** The file body is its scan followed by the prints and the write. *)
Lemma file_body_scan (apply : bool) (filepath : string)
    (total_removed total_kept : nat) (all_removed_items : list removal)
    (w : world) :
  match scan_file filepath all_removed_items (fs w !! filepath) with
  | Raise e =>
      file_body apply filepath (total_removed, total_kept, all_removed_items) w
      = (w, Raise e)
  | Ok (d, (kept, removed, all_removed_items')) =>
      exists out : list string,
        file_body apply filepath (total_removed, total_kept, all_removed_items) w
        = (World
             (if apply && nonempty removed
              then <[filepath := json_dump (JObj (dict_set "items" (JArr kept) d))]>
                     (fs w)
              else fs w)
             (stdout w ++ out),
           Ok (total_removed + length removed, total_kept + length kept,
               all_removed_items'))
  end.
Proof.
  unfold scan_file, file_body. run_io.
  destruct (fs w !! filepath) as [text|]; cbn [bind_result]; [|reflexivity].
  destruct (json_load text) as [data|]; cbn [bind_result]; [|reflexivity].
  destruct data as [| | | | |d]; cbn [py_get bind_result]; try reflexivity.
  destruct (py_len (dict_get d "items" (JArr []))) as [n|e];
    cbn [bind_result]; [|reflexivity].
  destruct (py_iter (dict_get d "items" (JArr []))) as [elements|e];
    cbn [bind_result]; [|reflexivity].
  destruct (items_loop _ elements [] [] all_removed_items)
    as [[[kept removed] records]|e] eqn:Hloop; cbn [bind_result]; [|reflexivity].
  pose proof (items_loop_classifiable _ _ _ _ _ _ Hloop) as Hall.
  rewrite (items_loop_ok _ _ _ _ _ Hall) in Hloop. cbn [app] in Hloop.
  injection Hloop as <- <- <-.
  destruct (print_removed_ok elements Hall) as [out Hprint].
  destruct (nonempty (removed_of elements)) eqn:Hne.
  - destruct apply; cbn [andb].
    + eexists. rewrite Hprint. cbn [fs stdout py_setitem].
      rewrite lookup_insert_eq, insert_insert_eq. cbn [default].
      rewrite append_nil, <- !app_assoc. reflexivity.
    + eexists. rewrite Hprint. cbn [fs stdout].
      rewrite <- !app_assoc. reflexivity.
  - rewrite andb_false_r. exists []. rewrite app_nil_r. now destruct w.
Qed.

Lemma scan_files_agree (disk disk' : gmap string string) (files : list string)
    (acc : nat * nat * list removal) :
  (forall g, In g files -> disk' !! g = disk !! g) ->
  scan_files disk' files acc = scan_files disk files acc.
Proof.
  revert acc. induction files as [|filepath files IH]; intros acc Hsame;
    [reflexivity|].
  destruct acc as [[total_removed total_kept] all_removed_items].
  cbn [scan_files]. rewrite (Hsame filepath (or_introl eq_refl)).
  destruct (scan_file filepath all_removed_items (disk !! filepath))
    as [[d [[kept removed] records]]|e]; cbn [bind_result]; [|reflexivity].
  apply IH. intros g Hg. apply Hsame. now right.
Qed.

(** Over distinct files the value of the file loop is the scan of the disk
    the loop started from, in either mode. *)
Lemma files_loop_scan (apply : bool) (files : list string)
    (acc : nat * nat * list removal) (w : world) :
  NoDup files ->
  snd (files_loop apply files acc w) = scan_files (fs w) files acc.
Proof.
  intros Hnd. revert acc w.
  induction Hnd as [|filepath files Hfresh Hnd IH]; intros acc w; [reflexivity|].
  destruct acc as [[total_removed total_kept] all_removed_items].
  cbn [files_loop scan_files]. unfold bind.
  pose proof (file_body_scan apply filepath total_removed total_kept
                all_removed_items w) as Hbody.
  destruct (scan_file filepath all_removed_items (fs w !! filepath))
    as [[d [[kept removed] records]]|e]; cbn [bind_result].
  - destruct Hbody as [out ->]. rewrite IH. apply scan_files_agree.
    intros g Hg. cbn [fs].
    destruct (apply && nonempty removed); [|reflexivity].
    apply lookup_insert_ne. intros ->. apply Hfresh. now apply list_elem_of_In.
  - now rewrite Hbody.
Qed.

End ScanFacts.

(** ** What the classifier answers, item by item *)

Section OutcomeFacts.
Context `{Python}.

(** An item that is not a MenuItem makes the classifier raise
    [AttributeError]. *)
Lemma should_remove_not_menu_item (item : json) :
  ~ is_menu_item item -> should_remove item = Raise AttributeError.
Proof.
  intros Hnot. destruct item as [| | | | |d]; try reflexivity.
  unfold should_remove, py_get. cbn [bind_result].
  destruct (dict_get d "name" (JStr "")) as [| | |nm| |] eqn:Hn; try reflexivity.
  cbn [py_lower bind_result].
  destruct (dict_get d "category" (JStr "")) as [| | |cat| |] eqn:Hc;
    try reflexivity.
  cbn [py_lower bind_result].
  destruct (dict_get d "macros" (JObj [])) as [| | | | |macros] eqn:Hm;
    try reflexivity.
  exfalso. apply Hnot.
  exists d, nm, cat, (dict_get macros "calories" (JInt 999)).
  split; [reflexivity|]. split; [exact Hn | exact Hc |].
  exists macros. now split.
Qed.

Lemma is_menu_item_dec (item : json) : is_menu_item item \/ ~ is_menu_item item.
Proof.
  destruct item as [| | | | |d];
    try (right; intros (d & nm & cat & calories & Hd & _); discriminate Hd).
  destruct (dict_get d "name" (JStr "")) as [| | |nm| |] eqn:Hn;
    try (right; intros (d' & nm' & cat' & calories & [= <-] & [Hn' _ _]);
         congruence).
  destruct (dict_get d "category" (JStr "")) as [| | |cat| |] eqn:Hc;
    try (right; intros (d' & nm' & cat' & calories & [= <-] & [_ Hc' _]);
         congruence).
  destruct (dict_get d "macros" (JObj [])) as [| | | | |macros] eqn:Hm;
    try (right; intros (d' & nm' & cat' & calories & [= <-] & [_ _ (m & Hm' & _)]);
         congruence).
  left. exists d, nm, cat, (dict_get macros "calories" (JInt 999)).
  split; [reflexivity|]. split; [exact Hn | exact Hc |].
  exists macros. now split.
Qed.

Lemma py_le_int_non_numeric (calories : json) (n : Z) :
  py_le_int calories n = Raise TypeError <-> non_numeric calories.
Proof. destruct calories; cbn; split; intros Hx; try exact I; try reflexivity;
  try discriminate; try contradiction. Qed.

End OutcomeFacts.

(** X1: [should_remove] either answers or raises [AttributeError] or
    [TypeError], never anything else.  It raises [AttributeError] exactly on
    what is not a MenuItem (not a dict, a name or category that is not a
    string, a macro block that is not a dict), and [TypeError] exactly on a
    MenuItem that matches no kids pattern and whose calorie value is neither a
    number nor a boolean; a kids match is answered before the calorie value is
    ever compared. *)
Theorem should_remove_outcomes `{Python} (item : json) :
  (should_remove item = Raise AttributeError <-> ~ is_menu_item item) /\
  (should_remove item = Raise TypeError <->
   exists (d : list (string * json)) (nm cat : string) (calories : json),
     item = JObj d /\ menu_item d nm cat calories /\
     kids_matchb nm cat = false /\ non_numeric calories) /\
  (forall e : exn,
     should_remove item = Raise e -> e = AttributeError \/ e = TypeError) /\
  (forall (d : list (string * json)) (nm cat : string) (calories : json),
     item = JObj d -> menu_item d nm cat calories -> kids_matchb nm cat = true ->
     should_remove item = Ok (true, "kids_item (cal=" +:+ py_str calories +:+ ")")).
Proof.
  assert (Hform : forall d nm cat calories,
            item = JObj d -> menu_item d nm cat calories ->
            should_remove item =
            if kids_matchb nm cat
            then Ok (true, "kids_item (cal=" +:+ py_str calories +:+ ")")
            else
              bind_result (py_le_int calories CALORIE_THRESHOLD)
                (fun low =>
                   if low
                   then Ok (true, "low_cal (" +:+ py_str calories +:+ " cal)")
                   else Ok (false, ""%string))).
  { intros d nm cat calories -> Hitem. now apply should_remove_menu_item. }
  assert (Hraise : forall d nm cat calories e,
            item = JObj d -> menu_item d nm cat calories ->
            should_remove item = Raise e ->
            e = TypeError /\ kids_matchb nm cat = false /\ non_numeric calories).
  { intros d nm cat calories e Hd Hitem. rewrite (Hform _ _ _ _ Hd Hitem).
    destruct (kids_matchb nm cat); [discriminate|].
    destruct calories as [|b|z| | |]; cbn [py_le_int bind_result non_numeric];
      try (intros [= <-]; now auto).
    - destruct ((if b then 1 else 0) <=? CALORIE_THRESHOLD)%Z; discriminate.
    - destruct (z <=? CALORIE_THRESHOLD)%Z; discriminate. }
  split; [|split; [|split]].
  - split.
    + intros Hsr (d & nm & cat & calories & Hd & Hitem).
      destruct (Hraise _ _ _ _ _ Hd Hitem Hsr) as [Habs _]. discriminate.
    + apply should_remove_not_menu_item.
  - split.
    + intros Hsr.
      destruct (is_menu_item_dec item)
        as [(d & nm & cat & calories & Hd & Hitem) | Hnot].
      * exists d, nm, cat, calories.
        destruct (Hraise _ _ _ _ _ Hd Hitem Hsr) as (_ & Hk & Hcal). auto.
      * rewrite (should_remove_not_menu_item item Hnot) in Hsr. discriminate.
    + intros (d & nm & cat & calories & Hd & Hitem & Hk & Hcal).
      rewrite (Hform _ _ _ _ Hd Hitem), Hk.
      now rewrite (proj2 (py_le_int_non_numeric calories CALORIE_THRESHOLD) Hcal).
  - intros e Hsr.
    destruct (is_menu_item_dec item)
      as [(d & nm & cat & calories & Hd & Hitem) | Hnot].
    + right. now destruct (Hraise _ _ _ _ _ Hd Hitem Hsr).
    + left. rewrite (should_remove_not_menu_item item Hnot) in Hsr. congruence.
  - intros d nm cat calories Hd Hitem Hk. now rewrite (Hform _ _ _ _ Hd Hitem), Hk.
Qed.

(** ** What the item loop records *)

Section RecordFacts.
Context `{Python}.

Lemma removed_of_cons (item : json) (items : list json) :
  removed_of (item :: items) =
  match should_remove item with
  | Ok (true, why) => (item, why) :: removed_of items
  | _ => removed_of items
  end.
Proof.
  unfold removed_of. cbn [omap list_omap].
  now destruct (should_remove item) as [[[|] why]|e].
Qed.

Lemma records_of_cons (restaurant item : json) (items : list json) :
  records_of restaurant (item :: items) =
  match should_remove item, py_getitem item "name" with
  | Ok (true, why), Ok item_name =>
      Removal restaurant item_name why :: records_of restaurant items
  | _, _ => records_of restaurant items
  end.
Proof.
  unfold records_of. cbn [omap list_omap].
  destruct (should_remove item) as [[[|] why]|e]; try reflexivity.
  now destruct (py_getitem item "name").
Qed.

Lemma is_kept_false_of_removed (item : json) (why : string) :
  should_remove item = Ok (true, why) -> is_kept item = false.
Proof. unfold is_kept. now intros ->. Qed.

Lemma is_kept_true_of_kept (item : json) (why : string) :
  should_remove item = Ok (false, why) -> is_kept item = true.
Proof. unfold is_kept. now intros ->. Qed.

Lemma removed_of_In (items : list json) (item : json) (why : string) :
  In (item, why) (removed_of items) ->
  In item items /\ should_remove item = Ok (true, why).
Proof.
  induction items as [|x items IH]; [intros []|].
  rewrite removed_of_cons.
  destruct (should_remove x) as [[[|] reason]|e] eqn:Hsr;
    try (intros Hin; destruct (IH Hin); split; [now right | assumption]).
  intros [[= <- <-] | Hin]; [split; [now left | exact Hsr]|].
  destruct (IH Hin). split; [now right | assumption].
Qed.

Lemma partition_permutation (items : list json) :
  Forall classifiable items ->
  Permutation items (List.filter is_kept items ++ map fst (removed_of items)).
Proof.
  induction 1 as [|item items Hitem _ IH]; [constructor|].
  rewrite removed_of_cons. cbn [List.filter]. unfold classifiable in Hitem.
  destruct (should_remove item) as [[[|] why]|e] eqn:Hsr; [| |contradiction].
  - rewrite (is_kept_false_of_removed _ _ Hsr). cbn [map fst].
    now apply Permutation_cons_app.
  - rewrite (is_kept_true_of_kept _ _ Hsr). cbn [app]. now constructor.
Qed.

Lemma removed_records (restaurant : json) (items : list json) :
  Forall classifiable items ->
  Forall2
    (fun (entry : json * string) (record : removal) =>
       should_remove (fst entry) = Ok (true, snd entry) /\
       py_getitem (fst entry) "name" = Ok (name record) /\
       restaurant_name record = restaurant /\
       reason record = snd entry)
    (removed_of items) (records_of restaurant items).
Proof.
  induction 1 as [|item items Hitem _ IH]; [constructor|].
  rewrite removed_of_cons, records_of_cons. unfold classifiable in Hitem.
  destruct (should_remove item) as [[[|] why]|e] eqn:Hsr; [| exact IH | contradiction].
  destruct Hitem as [item_name Hname]. rewrite Hname.
  constructor; [|exact IH]. cbn [fst snd name restaurant_name reason]. auto.
Qed.

Lemma item_kids_menu_item (d : list (string * json)) (nm cat : string)
    (calories : json) :
  menu_item d nm cat calories -> item_kids (JObj d) = kids_matchb nm cat.
Proof. intros [Hn Hc _]. unfold item_kids. now rewrite Hn, Hc. Qed.

End RecordFacts.

(** X2: when the item loop comes to its end, the kept items and the removed
    items together are the items it was given, each once; and each removed
    item has added exactly one removal record, in item order, carrying the
    file's restaurant, the item's own [name] value and the reason the
    classifier gave. *)
Theorem items_loop_partition `{Python} (restaurant : json)
    (items kept : list json) (removed : list (json * string))
    (all_removed_items records : list removal) :
  items_loop restaurant items [] [] all_removed_items = Ok (kept, removed, records) ->
  Permutation items (kept ++ map fst removed) /\
  length kept + length removed = length items /\
  exists new : list removal,
    records = all_removed_items ++ new /\
    Forall2
      (fun (entry : json * string) (record : removal) =>
         should_remove (fst entry) = Ok (true, snd entry) /\
         py_getitem (fst entry) "name" = Ok (name record) /\
         restaurant_name record = restaurant /\
         reason record = snd entry)
      removed new.
Proof.
  intros Hloop.
  pose proof (items_loop_classifiable _ _ _ _ _ _ Hloop) as Hall.
  rewrite (items_loop_ok _ _ _ _ _ Hall) in Hloop. cbn [app] in Hloop.
  injection Hloop as <- <- <-.
  pose proof (partition_permutation items Hall) as Hperm.
  split; [exact Hperm|]. split.
  - apply Permutation_length in Hperm.
    rewrite length_app, length_map in Hperm. lia.
  - exists (records_of restaurant items). split; [reflexivity|].
    now apply removed_records.
Qed.

Lemma items_loop_partition_witness :
  @items_loop example_python (JStr "Joe's") [JObj burger; JObj fries; JObj bowl]
     [] [] []
  = Ok ([JObj bowl],
        [(JObj burger, "kids_item (cal=350)"%string);
         (JObj fries, "low_cal (80 cal)"%string)],
        [Removal (JStr "Joe's") (JStr "Kid's Burger") "kids_item (cal=350)";
         Removal (JStr "Joe's") (JStr "Side of Fries") "low_cal (80 cal)"]) /\
  Permutation [JObj burger; JObj fries; JObj bowl]
    ([JObj bowl] ++ map fst [(JObj burger, "kids_item (cal=350)"%string);
                             (JObj fries, "low_cal (80 cal)"%string)]).
Proof.
  assert (Hloop :
    @items_loop example_python (JStr "Joe's") [JObj burger; JObj fries; JObj bowl]
       [] [] []
    = Ok ([JObj bowl],
          [(JObj burger, "kids_item (cal=350)"%string);
           (JObj fries, "low_cal (80 cal)"%string)],
          [Removal (JStr "Joe's") (JStr "Kid's Burger") "kids_item (cal=350)";
           Removal (JStr "Joe's") (JStr "Side of Fries") "low_cal (80 cal)"]))
    by (vm_compute; reflexivity).
  split; [exact Hloop|].
  exact (proj1 (@items_loop_partition example_python _ _ _ _ _ _ Hloop)).
Defined.

(** X3: the records picked for the kids DELETE by looking for [kids_item] in
    their reason are exactly the records of the items the kids rule matches,
    because a [low_cal] reason never contains that text; and every removed
    item the kids rule does not match has a calorie value that compares as at
    most 100, so it is the threshold DELETE that is meant for it. *)
Theorem kids_delete_covers_kids_rule `{Python} (restaurant : json)
    (items : list json) :
  kids_of (records_of restaurant items)
  = records_of restaurant (List.filter item_kids items) /\
  (forall (item : json) (why : string),
     In (item, why) (removed_of items) ->
     item_kids item = true \/
     exists (d : list (string * json)) (nm cat : string) (calories : json),
       item = JObj d /\ menu_item d nm cat calories /\
       py_le_int calories CALORIE_THRESHOLD = Ok true).
Proof.
  split.
  - induction items as [|item items IH]; [reflexivity|].
    rewrite records_of_cons. cbn [List.filter].
    destruct (should_remove item) as [[[|] why]|e] eqn:Hsr.
    + destruct (should_remove_menu_item_inv _ _ Hsr)
        as (d & nm & cat & calories & -> & Hitem).
      rewrite (item_kids_menu_item _ _ _ _ Hitem).
      rewrite <- (reason_mentions_kids_item _ _ _ _ _ Hitem Hsr).
      destruct (py_getitem (JObj d) "name") as [item_name|e] eqn:Hname.
      * unfold kids_of. cbn [List.filter reason].
        fold (kids_of (records_of restaurant items)).
        destruct (str_contains "kids_item" why).
        -- rewrite records_of_cons, Hsr, Hname. now rewrite IH.
        -- exact IH.
      * destruct (str_contains "kids_item" why); [|exact IH].
        rewrite records_of_cons, Hsr, Hname. exact IH.
    + destruct (item_kids item); [|exact IH].
      rewrite records_of_cons, Hsr. exact IH.
    + destruct (item_kids item); [|exact IH].
      rewrite records_of_cons, Hsr. exact IH.
  - intros item why Hin. apply removed_of_In in Hin. destruct Hin as [_ Hsr].
    destruct (should_remove_menu_item_inv _ _ Hsr)
      as (d & nm & cat & calories & -> & Hitem).
    rewrite (item_kids_menu_item _ _ _ _ Hitem).
    rewrite (should_remove_menu_item _ _ _ _ Hitem) in Hsr.
    destruct (kids_matchb nm cat); [now left|]. right.
    exists d, nm, cat, calories. split; [reflexivity|]. split; [exact Hitem|].
    destruct (py_le_int calories CALORIE_THRESHOLD) as [[|]|e];
      cbn [bind_result] in Hsr; [reflexivity | discriminate | discriminate].
Qed.

(** ** Totals, aborted runs and the two modes *)

Section TotalFacts.
Context `{Python}.

Lemma scan_file_inv (filepath : string) (all_removed_items : list removal)
    (content : option string) (d : list (string * json)) (kept : list json)
    (removed : list (json * string)) (records : list removal) :
  scan_file filepath all_removed_items content = Ok (d, (kept, removed, records)) ->
  exists (text : string) (elements : list json),
    content = Some text /\
    json_load text = Some (JObj d) /\
    py_iter (dict_get d "items" (JArr [])) = Ok elements /\
    items_loop (dict_get d "restaurant_name" (JStr (basename filepath))) elements
      [] [] all_removed_items = Ok (kept, removed, records).
Proof.
  unfold scan_file. destruct content as [text|]; cbn [bind_result]; [|discriminate].
  destruct (json_load text) as [data|] eqn:Hload; cbn [bind_result]; [|discriminate].
  destruct data as [| | | | |d']; cbn [py_get bind_result]; try discriminate.
  destruct (py_len (dict_get d' "items" (JArr []))) as [n|e];
    cbn [bind_result]; [|discriminate].
  destruct (py_iter (dict_get d' "items" (JArr []))) as [elements|e] eqn:Hiter;
    cbn [bind_result]; [|discriminate].
  destruct (items_loop _ elements [] [] all_removed_items) as [r|e] eqn:Hloop;
    cbn [bind_result]; [|discriminate].
  intros [= <- ->]. now exists text, elements.
Qed.

Lemma scan_files_totals (disk : gmap string string) (files : list string)
    (total_removed total_kept : nat) (all_removed_items : list removal)
    (total_removed' total_kept' : nat) (all_removed_items' : list removal) :
  scan_files disk files (total_removed, total_kept, all_removed_items)
  = Ok (total_removed', total_kept', all_removed_items') ->
  total_removed' + total_kept'
  = total_removed + total_kept + length (flat_map (menu_elements disk) files) /\
  total_removed' + length all_removed_items
  = total_removed + length all_removed_items'.
Proof.
  revert total_removed total_kept all_removed_items.
  induction files as [|filepath files IH];
    intros total_removed total_kept all_removed_items Hscan.
  - injection Hscan as <- <- <-. cbn. lia.
  - cbn [scan_files] in Hscan.
    destruct (scan_file filepath all_removed_items (disk !! filepath))
      as [[d [[kept removed] records]]|e] eqn:Hfile;
      cbn [bind_result] in Hscan; [|discriminate].
    destruct (scan_file_inv _ _ _ _ _ _ _ Hfile)
      as (text & elements & Hcontent & Hload & Hiter & Hloop).
    apply IH in Hscan. destruct Hscan as [Hsum Hrec].
    pose proof (items_loop_classifiable _ _ _ _ _ _ Hloop) as Hall.
    pose proof (items_loop_lengths _ _ _ _ _ _ _ _ Hloop) as Hlen.
    rewrite (items_loop_ok _ _ _ _ _ Hall) in Hloop. cbn [app] in Hloop.
    injection Hloop as <- <- _.
    pose proof (Permutation_length (partition_permutation elements Hall)) as Hperm.
    rewrite length_app, length_map in Hperm.
    cbn [flat_map]. rewrite length_app.
    unfold menu_elements at 1. rewrite Hcontent, Hload, Hiter.
    cbn [length] in Hlen. lia.
Qed.

End TotalFacts.

(** X4: over distinct files, when the file loop comes to its end the two
    totals it has counted add up to the number of items in all the files, and
    the total removed is the number of removal records collected for the
    SQL. *)
Theorem totals_count_every_item `{Python} (apply : bool) (files : list string)
    (w w' : world) (total_removed total_kept : nat)
    (all_removed_items : list removal) :
  NoDup files ->
  files_loop apply files (0, 0, []) w
  = (w', Ok (total_removed, total_kept, all_removed_items)) ->
  total_removed + total_kept = length (flat_map (menu_elements (fs w)) files) /\
  total_removed = length all_removed_items.
Proof.
  intros Hnd Hloop.
  pose proof (files_loop_scan apply files (0, 0, []) w Hnd) as Hscan.
  rewrite Hloop in Hscan. cbn [snd] in Hscan. symmetry in Hscan.
  apply scan_files_totals in Hscan. cbn [length] in Hscan. lia.
Qed.

Lemma totals_count_every_item_witness :
  NoDup [joes_path] /\
  snd (@files_loop example_python true [joes_path] (0, 0, []) example_world)
  = Ok (2, 1, [Removal (JStr "Joe's") (JStr "Kid's Burger") "kids_item (cal=350)";
               Removal (JStr "Joe's") (JStr "Side of Fries") "low_cal (80 cal)"]) /\
  2 + 1 = length (flat_map (@menu_elements example_python (fs example_world))
                    [joes_path]).
Proof.
  assert (Hnd : NoDup [joes_path]) by apply NoDup_singleton.
  assert (Hsnd :
    snd (@files_loop example_python true [joes_path] (0, 0, []) example_world)
    = Ok (2, 1, [Removal (JStr "Joe's") (JStr "Kid's Burger") "kids_item (cal=350)";
                 Removal (JStr "Joe's") (JStr "Side of Fries") "low_cal (80 cal)"]))
    by (vm_compute; reflexivity).
  split; [exact Hnd|]. split; [exact Hsnd|].
  exact (proj1 (@totals_count_every_item example_python true [joes_path]
                  example_world _ 2 1 _ Hnd (pair_of_snd _ _ Hsnd))).
Defined.

(** X5: an exception that the data of a file causes (a document that does not
    load, a wrong type, a missing key) is raised before anything is printed
    for the file and before the file is written, in apply mode too: the world
    is as it was when the file was opened. *)
Theorem file_body_raises_before_effects `{Python} (apply : bool)
    (filepath : string) (acc : nat * nat * list removal) (w w' : world) (e : exn) :
  file_body apply filepath acc w = (w', Raise e) -> data_exception e -> w' = w.
Proof.
  intros Hrun _. revert Hrun.
  destruct acc as [[total_removed total_kept] all_removed_items].
  pose proof (file_body_scan apply filepath total_removed total_kept
                all_removed_items w) as Hbody.
  destruct (scan_file filepath all_removed_items (fs w !! filepath))
    as [[d [[kept removed] records]]|e'].
  - destruct Hbody as [out ->]. discriminate.
  - rewrite Hbody. now intros [= <- _].
Qed.

Lemma file_body_raises_before_effects_witness :
  data_exception (KeyError "name") /\
  @file_body example_python true diner_path (0, 0, []) example_world
  = (example_world, Raise (KeyError "name")).
Proof.
  assert (Hkind : data_exception (KeyError "name")).
  { right. right. left. now exists "name"%string. }
  assert (Hsnd : snd (@file_body example_python true diner_path (0, 0, [])
                        example_world) = Raise (KeyError "name"))
    by (vm_compute; reflexivity).
  pose proof (pair_of_snd _ _ Hsnd) as Hrun.
  rewrite (@file_body_raises_before_effects example_python true diner_path
             (0, 0, []) example_world _ _ Hrun Hkind) in Hrun.
  split; [exact Hkind | exact Hrun].
Defined.



(** X7: in either mode, and whether it completes or aborts, a run changes no
    file other than the SQL file and the menu files it was given. *)
Theorem run_touches_only_its_files `{Python} (argv files : list string)
    (sql_file : string) (w : world) (p : string) :
  p <> sql_file -> ~ In p files ->
  fs (fst (process_files argv files sql_file w)) !! p = fs w !! p.
Proof.
  intros Hsql Hfiles. apply frame_process_files.
  intros [Heq | [_ Hin]]; [now apply Hsql | now apply Hfiles].
Qed.

Lemma run_touches_only_its_files_witness :
  diner_path <> sql_path /\ ~ In diner_path [joes_path] /\
  fs (fst (@process_files example_python ["clean-menu-data.py"; "--apply"]%string
             [joes_path] sql_path example_world)) !! diner_path
  = fs example_world !! diner_path.
Proof.
  assert (Hsql : diner_path <> sql_path) by discriminate.
  assert (Hfiles : ~ In diner_path [joes_path]).
  { intros [Heq | []]. discriminate Heq. }
  split; [exact Hsql|]. split; [exact Hfiles|].
  exact (@run_touches_only_its_files example_python _ _ _ _ _ Hsql Hfiles).
Defined.

(** X8: the dry run is a true preview of the SQL.  Over distinct menu files, a
    dry run and an apply run from the same disk that both come to their end
    leave the same SQL file. *)
Theorem mode_does_not_change_sql `{Python} (argv argv' files : list string)
    (sql_file : string) (w : world) :
  NoDup files ->
  snd (process_files argv files sql_file w) = Ok tt ->
  snd (process_files argv' files sql_file w) = Ok tt ->
  fs (fst (process_files argv files sql_file w)) !! sql_file
  = fs (fst (process_files argv' files sql_file w)) !! sql_file.
Proof.
  intros Hnd. rewrite !process_files_run.
  set (w1 := World (fs w) (stdout w ++ header_lines argv files)).
  set (w1' := World (fs w) (stdout w ++ header_lines argv' files)).
  pose proof (files_loop_scan (APPLY argv) files (0, 0, []) w1 Hnd) as Hscan.
  pose proof (files_loop_scan (APPLY argv') files (0, 0, []) w1' Hnd) as Hscan'.
  assert (Hsame : snd (files_loop (APPLY argv') files (0, 0, []) w1')
                   = snd (files_loop (APPLY argv) files (0, 0, []) w1)).
  { rewrite Hscan, Hscan'. reflexivity. }
  clear Hscan Hscan'. rename Hsame into Hscan'.
  unfold bind.
  destruct (files_loop (APPLY argv) files (0, 0, []) w1) as [w2 r].
  destruct (files_loop (APPLY argv') files (0, 0, []) w1') as [w2' r'].
  cbn [fst snd] in *. subst r'.
  destruct r as [[[total_removed total_kept] all_removed_items]|e];
    [|discriminate].
  destruct (conditions_loop (kids_of all_removed_items) []) as [conditions|e] eqn:Hc.
  - destruct (report_run (APPLY argv) sql_file total_removed total_kept
                all_removed_items conditions w2 Hc) as (summary & console & -> & _).
    destruct (report_run (APPLY argv') sql_file total_removed total_kept
                all_removed_items conditions w2' Hc) as (summary' & console' & -> & _).
    cbn [fst snd fs]. intros _ _. now rewrite !lookup_insert_eq.
  - destruct (report_raise (APPLY argv) sql_file total_removed total_kept
                all_removed_items e w2 Hc) as (out & ->).
    cbn [fst snd fs]. discriminate.
Qed.

Lemma mode_does_not_change_sql_witness :
  NoDup [joes_path] /\
  snd (@process_files example_python ["clean-menu-data.py"]%string [joes_path]
         sql_path example_world) = Ok tt /\
  snd (@process_files example_python ["clean-menu-data.py"; "--apply"]%string
         [joes_path] sql_path example_world) = Ok tt /\
  fs (fst (@process_files example_python ["clean-menu-data.py"]%string [joes_path]
             sql_path example_world)) !! sql_path
  = fs (fst (@process_files example_python ["clean-menu-data.py"; "--apply"]%string
               [joes_path] sql_path example_world)) !! sql_path.
Proof.
  assert (Hnd : NoDup [joes_path]) by apply NoDup_singleton.
  assert (Hdry : snd (@process_files example_python ["clean-menu-data.py"]%string
                        [joes_path] sql_path example_world) = Ok tt)
    by (vm_compute; reflexivity).
  assert (Happly : snd (@process_files example_python
                          ["clean-menu-data.py"; "--apply"]%string
                          [joes_path] sql_path example_world) = Ok tt)
    by (vm_compute; reflexivity).
  split; [exact Hnd|]. split; [exact Hdry|]. split; [exact Happly|].
  exact (@mode_does_not_change_sql example_python
           ["clean-menu-data.py"]%string
           ["clean-menu-data.py"; "--apply"]%string [joes_path] sql_path
           example_world Hnd Hdry Happly).
Defined.

(** ** Odd documents *)

(** X9: what the loop body does with the [items] entry of a document.  A
    missing entry, an empty list, an empty string and an empty dict are an
    empty menu: nothing is printed, written or counted.  [null], a number or a
    boolean raises [TypeError] at [len]; a non-empty string or dict raises
    [AttributeError] at its first element, which is a string. *)
Theorem odd_items_entries `{Python} (apply : bool) (filepath text : string)
    (d : list (string * json)) (acc : nat * nat * list removal) (w : world) :
  fs w !! filepath = Some text ->
  json_load text = Some (JObj d) ->
  match dict_get d "items" (JArr []) with
  | JNull | JBool _ | JInt _ => file_body apply filepath acc w = (w, Raise TypeError)
  | JStr (String _ _) | JObj (_ :: _) =>
      file_body apply filepath acc w = (w, Raise AttributeError)
  | JStr EmptyString | JObj [] | JArr [] => file_body apply filepath acc w = (w, Ok acc)
  | JArr (_ :: _) => True
  end.
Proof.
  intros Hfile Hload.
  destruct acc as [[total_removed total_kept] all_removed_items].
  assert (Hempty : forall items,
            dict_get d "items" (JArr []) = items ->
            py_len items = Ok 0 -> py_iter items = Ok [] ->
            file_body apply filepath (total_removed, total_kept, all_removed_items) w
            = (w, Ok (total_removed, total_kept, all_removed_items))).
  { intros items Hitems Hlen Hiter. unfold file_body. run_io.
    rewrite Hfile, Hload. cbn [py_get]. rewrite Hitems, Hlen, Hiter.
    cbn [items_loop nonempty andb length]. rewrite !Nat.add_0_r, andb_false_r.
    reflexivity. }
  assert (Hraise : forall e,
            scan_file filepath all_removed_items (fs w !! filepath) = Raise e ->
            file_body apply filepath (total_removed, total_kept, all_removed_items) w
            = (w, Raise e)).
  { intros e Hscan.
    pose proof (file_body_scan apply filepath total_removed total_kept
                  all_removed_items w) as Hbody.
    now rewrite Hscan in Hbody. }
  destruct (dict_get d "items" (JArr [])) as [|b|z|[|c s]|[|x l]|[|kv o]] eqn:Hitems;
    try exact I;
    try (apply (Hempty _ eq_refl); reflexivity);
    apply Hraise; unfold scan_file; rewrite Hfile; cbn [bind_result];
    rewrite Hload; cbn [bind_result py_get]; rewrite Hitems; reflexivity.
Qed.

Lemma odd_items_entries_witness :
  @file_body second_python true no_items_path (0, 0, []) second_world
  = (second_world, Ok (0, 0, [])) /\
  @file_body second_python true null_items_path (0, 0, []) second_world
  = (second_world, Raise TypeError) /\
  @file_body second_python true text_items_path (0, 0, []) second_world
  = (second_world, Raise AttributeError).
Proof.
  split; [|split].
  - refine (@odd_items_entries second_python true no_items_path "no items"
              [("restaurant_name", JStr "Empty")] (0, 0, []) second_world _ _);
      [vm_compute; reflexivity | reflexivity].
  - refine (@odd_items_entries second_python true null_items_path "null items"
              [("items", JNull)] (0, 0, []) second_world _ _);
      [vm_compute; reflexivity | reflexivity].
  - refine (@odd_items_entries second_python true text_items_path "text items"
              [("items", JStr "abc")] (0, 0, []) second_world _ _);
      [vm_compute; reflexivity | reflexivity].
Defined.

(** ** Quotes *)

Lemma undouble_double_quotes (s : string) : undouble (double_quotes s) = Some s.
Proof.
  induction s as [|c s IH]; [reflexivity|].
  cbn [double_quotes]. destruct (Ascii.eqb c "'") eqn:Hc.
  - apply Ascii.eqb_eq in Hc. subst c. cbn [undouble]. rewrite !Ascii.eqb_refl.
    now rewrite IH.
  - cbn [undouble]. rewrite Hc. now rewrite IH.
Qed.

(** X10: the escaping loses nothing and leaves no single quote on its own:
    read by SQL's rule for a quoted literal, where two single quotes stand
    for one, the escaped text gives back the original string, so two different
    names never get the same escaped text. *)
Theorem quote_escaping_round_trip (s : string) :
  py_replace (JStr s) "'" "''" = Ok (str_replace "'" "''" s) /\
  undouble (str_replace "'" "''" s) = Some s /\
  (forall t : string,
     str_replace "'" "''" s = str_replace "'" "''" t -> s = t).
Proof.
  split; [reflexivity|]. split.
  - rewrite replace_quote. apply undouble_double_quotes.
  - intros t Heq.
    assert (Hs : undouble (str_replace "'" "''" s) = Some s)
      by (rewrite replace_quote; apply undouble_double_quotes).
    assert (Ht : undouble (str_replace "'" "''" t) = Some t)
      by (rewrite replace_quote; apply undouble_double_quotes).
    rewrite Heq, Ht in Hs. now injection Hs.
Qed.

(** ** When the SQL can be built *)

Section ConditionFacts.
Context `{Python}.

Lemma conditions_loop_total (kids_items : list removal) :
  Forall record_ok kids_items ->
  exists conditions : list string, conditions_loop kids_items [] = Ok conditions.
Proof.
  induction 1 as [|item rest (restaurant & item_name & Hr & Hn) _ [more IH]].
  - now exists [].
  - cbn [conditions_loop]. rewrite Hr, Hn. cbn [py_replace bind_result app].
    rewrite conditions_loop_acc, IH. cbn [bind_result]. now eexists.
Qed.

Lemma conditions_loop_bad_record (kids_items : list removal) :
  Exists (fun record => ~ record_ok record) kids_items ->
  conditions_loop kids_items [] = Raise AttributeError.
Proof.
  induction kids_items as [|[r n why] rest IH]; intros Hbad.
  - now apply Exists_nil in Hbad.
  - cbn [conditions_loop name restaurant_name].
    destruct n as [| | |item_name| |]; try reflexivity.
    destruct r as [| | |restaurant| |]; try reflexivity.
    cbn [py_replace bind_result app]. rewrite conditions_loop_acc.
    apply Exists_cons in Hbad. destruct Hbad as [Hhead | Htail].
    + exfalso. apply Hhead. now exists restaurant, item_name.
    + now rewrite (IH Htail).
Qed.

(** The loop records a removed item under the string its name is. *)
Lemma records_of_ok (restaurant : string) (items : list json) :
  Forall record_ok (records_of (JStr restaurant) items).
Proof.
  induction items as [|item items IH]; [constructor|].
  rewrite records_of_cons.
  destruct (should_remove item) as [[[|] why]|e] eqn:Hsr; try exact IH.
  destruct (py_getitem item "name") as [item_name|e] eqn:Hname; [|exact IH].
  constructor; [|exact IH].
  destruct (should_remove_menu_item_inv _ _ Hsr)
    as (d & nm & cat & calories & -> & [Hn _ _]).
  exists restaurant, nm. split; [reflexivity|]. cbn [name].
  unfold py_getitem in Hname. unfold dict_get in Hn.
  destruct (dict_lookup "name" d) as [v|]; [|discriminate].
  congruence.
Qed.

Lemma scan_files_well_named (disk : gmap string string) (files : list string)
    (total_removed total_kept : nat) (all_removed_items : list removal) :
  (forall g, In g files -> well_named_file disk g) ->
  Forall record_ok all_removed_items ->
  exists (total_removed' total_kept' : nat) (all_removed_items' : list removal),
    scan_files disk files (total_removed, total_kept, all_removed_items)
    = Ok (total_removed', total_kept', all_removed_items') /\
    Forall record_ok all_removed_items'.
Proof.
  revert total_removed total_kept all_removed_items.
  induction files as [|filepath files IH];
    intros total_removed total_kept all_removed_items Hwf Hok.
  - now exists total_removed, total_kept, all_removed_items.
  - destruct (Hwf filepath (or_introl eq_refl))
      as (text & d & items & restaurant & Hfile & Hload & Hitems & Hall & Hr).
    cbn [scan_files]. unfold scan_file. rewrite Hfile. cbn [bind_result].
    rewrite Hload. cbn [bind_result py_get]. rewrite Hitems, Hr.
    cbn [py_len py_iter bind_result]. rewrite (items_loop_ok _ _ _ _ _ Hall).
    cbn [bind_result app]. apply IH.
    + intros g Hg. apply Hwf. now right.
    + apply Forall_app. split; [exact Hok | apply records_of_ok].
Qed.

End ConditionFacts.

(** X11: over distinct menu files that each load as a dict with a list of
    classifiable items and name their restaurant by a string (or do not name
    it, so that the file name stands in), the data stops the run in neither
    mode: no document fails to load, no value has the wrong type and no key is
    missing, in the file loop or while the SQL is built. *)
Theorem well_named_menus_complete `{Python} (argv files : list string)
    (sql_file : string) (w : world) :
  NoDup files ->
  (forall g, In g files -> well_named_file (fs w) g) ->
  forall e : exn,
    data_exception e -> snd (process_files argv files sql_file w) <> Raise e.
Proof.
  intros Hnd Hwf e _. rewrite process_files_run.
  set (w1 := World (fs w) (stdout w ++ header_lines argv files)).
  pose proof (files_loop_scan (APPLY argv) files (0, 0, []) w1 Hnd) as Hscan.
  destruct (scan_files_well_named (fs w) files 0 0 [] Hwf (List.Forall_nil _))
    as (total_removed & total_kept & all_removed_items & Hok & Hrecords).
  change (fs w1) with (fs w) in Hscan. rewrite Hok in Hscan.
  unfold bind.
  destruct (files_loop (APPLY argv) files (0, 0, []) w1) as [w2 r].
  cbn [snd] in Hscan. subst r.
  assert (Hkids : Forall record_ok (kids_of all_removed_items)).
  { unfold kids_of. apply Forall_forall. intros record Hin.
    apply list_elem_of_In, filter_In in Hin. destruct Hin as [Hin _].
    rewrite Forall_forall in Hrecords. apply Hrecords. now apply list_elem_of_In. }
  destruct (conditions_loop_total _ Hkids) as [conditions Hc].
  destruct (report_run (APPLY argv) sql_file total_removed total_kept
              all_removed_items conditions w2 Hc) as (summary & console & -> & _).
  discriminate.
Qed.

Lemma well_named_menus_complete_witness :
  NoDup [joes_path] /\
  @well_named_file example_python (fs example_world) joes_path /\
  data_exception (KeyError "name") /\
  snd (@process_files example_python ["clean-menu-data.py"; "--apply"]%string
         [joes_path] sql_path example_world) <> Raise (KeyError "name").
Proof.
  assert (Hnd : NoDup [joes_path]) by apply NoDup_singleton.
  assert (Hwf : @well_named_file example_python (fs example_world) joes_path).
  { exists "joes"%string,
      [("restaurant_name", JStr "Joe's");
       ("items", JArr [JObj burger; JObj fries; JObj bowl])],
      [JObj burger; JObj fries; JObj bowl], "Joe's"%string.
    split; [vm_compute; reflexivity|]. split; [reflexivity|].
    split; [reflexivity|]. split; [|reflexivity].
    repeat constructor; unfold classifiable; vm_compute; eauto. }
  assert (Hkind : data_exception (KeyError "name")).
  { right. right. left. now exists "name"%string. }
  split; [exact Hnd|]. split; [exact Hwf|]. split; [exact Hkind|].
  apply (@well_named_menus_complete example_python); [exact Hnd| |exact Hkind].
  intros g [<- | []]. exact Hwf.
Defined.

(** ** Which exceptions a run can raise *)

Lemma raises_ret {A : Type} (a : A) (P : exn -> Prop) : raises (ret a) P.
Proof. intros w w' e Hrun. discriminate Hrun. Qed.

Lemma raises_print (s : string) (P : exn -> Prop) : raises (print s) P.
Proof. intros w w' e Hrun. discriminate Hrun. Qed.

Lemma raises_open_w (path : string) (P : exn -> Prop) : raises (open_w path) P.
Proof. intros w w' e Hrun. discriminate Hrun. Qed.

Lemma raises_f_write (path s : string) (P : exn -> Prop) : raises (f_write path s) P.
Proof. intros w w' e Hrun. discriminate Hrun. Qed.

Lemma raises_lift {A : Type} (r : result A) (P : exn -> Prop) :
  (forall e, r = Raise e -> P e) -> raises (lift r) P.
Proof. intros HP w w' e [= _ ->]. now apply HP. Qed.

Lemma raises_read_text (path : string) (P : exn -> Prop) :
  P FileNotFoundError -> raises (read_text path) P.
Proof.
  intros HP w w' e. unfold read_text.
  destruct (fs w !! path); [discriminate | now intros [= _ <-]].
Qed.

Lemma raises_bind {A B : Type} (m : M A) (k : A -> M B) (P : exn -> Prop) :
  raises m P -> (forall a, raises (k a) P) -> raises (bind m k) P.
Proof.
  intros Hm Hk w w' e. unfold bind.
  destruct (m w) as [w1 [a|e1]] eqn:Hmw.
  - apply Hk.
  - intros [= _ <-]. exact (Hm w w1 e1 Hmw).
Qed.

Lemma only_name_key_other (e : exn) :
  e = AttributeError \/ e = TypeError \/ e = LoadError \/
  e = FileNotFoundError \/ e = KeyError "name" ->
  only_name_key e.
Proof.
  intros [-> | [-> | [-> | [-> | ->]]]] key Hkey; try discriminate Hkey.
  now injection Hkey as <-.
Qed.

Ltac raises_steps :=
  repeat first
    [ apply raises_bind; [|intros ?]
    | apply raises_ret | apply raises_print | apply raises_open_w
    | apply raises_f_write
    | match goal with
      | |- raises (match ?x with _ => _ end) _ => is_var x; destruct x
      end ].

Section RaiseFacts.
Context `{Python}.

Lemma py_get_raise (obj : json) (k : string) (default : json) (e : exn) :
  py_get obj k default = Raise e -> e = AttributeError.
Proof. destruct obj; cbn; congruence. Qed.

Lemma py_getitem_raise (obj : json) (k : string) (e : exn) :
  py_getitem obj k = Raise e -> e = TypeError \/ e = KeyError k.
Proof.
  destruct obj as [| | | | |d]; cbn; try (intros [= <-]; now left).
  destruct (dict_lookup k d); [discriminate | intros [= <-]; now right].
Qed.

Lemma should_remove_raise (item : json) (e : exn) :
  should_remove item = Raise e -> e = AttributeError \/ e = TypeError.
Proof.
  intros Hsr.
  destruct (is_menu_item_dec item) as [(d & nm & cat & calories & -> & Hitem) | Hnot].
  - rewrite (should_remove_menu_item _ _ _ _ Hitem) in Hsr.
    destruct (kids_matchb nm cat); [discriminate|]. right.
    destruct calories as [|b|z| | |]; cbn [py_le_int bind_result] in Hsr;
      try congruence.
    + destruct ((if b then 1 else 0) <=? CALORIE_THRESHOLD)%Z; discriminate.
    + destruct (z <=? CALORIE_THRESHOLD)%Z; discriminate.
  - left. rewrite (should_remove_not_menu_item item Hnot) in Hsr. congruence.
Qed.

Lemma items_loop_raise_kind (restaurant : json) (items kept : list json)
    (removed : list (json * string)) (all_removed_items : list removal) (e : exn) :
  items_loop restaurant items kept removed all_removed_items = Raise e ->
  only_name_key e.
Proof.
  revert kept removed all_removed_items.
  induction items as [|item items IH]; intros kept removed recs; [discriminate|].
  cbn [items_loop].
  destruct (should_remove item) as [[[|] why]|e'] eqn:Hsr; cbn [bind_result].
  - destruct (py_getitem item "name") as [item_name|e'] eqn:Hname;
      cbn [bind_result]; [apply IH|].
    intros [= <-]. apply only_name_key_other.
    destruct (py_getitem_raise _ _ _ Hname) as [-> | ->]; auto.
  - apply IH.
  - intros [= <-]. apply only_name_key_other.
    destruct (should_remove_raise _ _ Hsr) as [-> | ->]; auto.
Qed.

Lemma conditions_loop_raise_kind (kids_items : list removal)
    (conditions : list string) (e : exn) :
  conditions_loop kids_items conditions = Raise e -> e = AttributeError.
Proof.
  revert conditions. induction kids_items as [|[r n why] rest IH];
    intros conditions; [discriminate|].
  cbn [conditions_loop name restaurant_name].
  destruct n as [| | |item_name| |]; try (cbn; congruence).
  destruct r as [| | |restaurant| |]; try (cbn; congruence).
  cbn [py_replace bind_result]. apply IH.
Qed.

Lemma py_len_raise (v : json) (e : exn) : py_len v = Raise e -> e = TypeError.
Proof. destruct v; cbn; congruence. Qed.

Lemma py_iter_raise (v : json) (e : exn) : py_iter v = Raise e -> e = TypeError.
Proof. destruct v; cbn; congruence. Qed.

Lemma py_setitem_raise (obj : json) (k : string) (v : json) (e : exn) :
  py_setitem obj k v = Raise e -> e = TypeError.
Proof. destruct obj; cbn; congruence. Qed.

Lemma lift_kinds {A : Type} (r : result A) :
  (forall e, r = Raise e ->
     e = AttributeError \/ e = TypeError \/ e = LoadError \/
     e = FileNotFoundError \/ e = KeyError "name") ->
  raises (lift r) only_name_key.
Proof. intros Hr. apply raises_lift. intros e He. apply only_name_key_other. auto. Qed.

Lemma raises_print_removed (removed : list (json * string)) :
  raises (print_removed removed) only_name_key.
Proof.
  induction removed as [|[item why] removed IH]; cbn [print_removed].
  - apply raises_ret.
  - raises_steps; try exact IH; apply lift_kinds; intros e He;
      first [ left; exact (py_get_raise _ _ _ _ He)
            | destruct (py_getitem_raise _ _ _ He) as [-> | ->]; auto ].
Qed.

Lemma raises_file_body (apply : bool) (filepath : string)
    (acc : nat * nat * list removal) :
  raises (file_body apply filepath acc) only_name_key.
Proof.
  destruct acc as [[total_removed total_kept] all_removed_items].
  unfold file_body. raises_steps;
    try (apply raises_read_text; apply only_name_key_other; now auto);
    try (apply raises_lift; intros e He;
         exact (items_loop_raise_kind _ _ _ _ _ _ He));
    try (apply lift_kinds; intros e He;
         first [ left; exact (py_get_raise _ _ _ _ He)
               | right; left; exact (py_len_raise _ _ He)
               | right; left; exact (py_iter_raise _ _ He)
               | match type of He with
                 | context [json_load ?t] =>
                     destruct (json_load t); [discriminate | injection He as <-; auto]
                 end ]).
  - match goal with
    | |- raises (if nonempty ?r then _ else _) _ => destruct (nonempty r)
    end; raises_steps. apply raises_print_removed.
  - match goal with
    | |- raises (if ?c then _ else _) _ => destruct c
    end; raises_steps.
    apply lift_kinds. intros e He. right. left. exact (py_setitem_raise _ _ _ _ He).
Qed.

Lemma raises_files_loop (apply : bool) (files : list string)
    (acc : nat * nat * list removal) :
  raises (files_loop apply files acc) only_name_key.
Proof.
  revert acc. induction files as [|filepath files IH]; intros acc.
  - apply raises_ret.
  - cbn [files_loop]. apply raises_bind; [apply raises_file_body | exact IH].
Qed.

Lemma raises_report (apply : bool) (sql_file : string)
    (acc : nat * nat * list removal) :
  raises (report apply sql_file acc) only_name_key.
Proof.
  destruct acc as [[total_removed total_kept] all_removed_items].
  unfold report, print_summary, print_sql, write_sql.
  raises_steps;
    try (destruct apply; cbn [negb]; raises_steps);
    try (destruct (nonempty (kids_of all_removed_items)); raises_steps);
    apply raises_lift; intros e He; apply only_name_key_other; left;
    exact (conditions_loop_raise_kind _ _ _ He).
Qed.

End RaiseFacts.

(** X12: the only [KeyError] a run can end in is the one for the key [name],
    raised where a removal record is built from [item['name']]; every other
    exception of a run is an [AttributeError], a [TypeError], a decode error
    or a missing file. *)
Theorem run_key_error_is_name `{Python} (argv files : list string)
    (sql_file : string) (w : world) (key : string) :
  snd (process_files argv files sql_file w) = Raise (KeyError key) ->
  key = "name"%string.
Proof.
  intros Hrun.
  assert (Hraises : raises (process_files argv files sql_file) only_name_key).
  { unfold process_files. raises_steps.
    - apply raises_files_loop.
    - apply raises_report. }
  destruct (process_files argv files sql_file w) as [w' r] eqn:Hp.
  cbn [snd] in Hrun. subst r. exact (Hraises w w' _ Hp key eq_refl).
Qed.

Lemma run_key_error_is_name_witness :
  snd (@process_files example_python ["clean-menu-data.py"]%string [diner_path]
         sql_path example_world) = Raise (KeyError "name") /\
  "name"%string = "name"%string.
Proof.
  assert (Hrun :
    snd (@process_files example_python ["clean-menu-data.py"]%string [diner_path]
           sql_path example_world) = Raise (KeyError "name"))
    by (vm_compute; reflexivity).
  split; [exact Hrun|].
  exact (@run_key_error_is_name example_python _ _ _ _ _ Hrun).
Defined.

(** ** Running apply mode again *)

Section AgainFacts.
Context `{Python}.




End AgainFacts.



(** ** Menus that do not name their restaurant *)

Lemma basename_after_slash (dir name : string) :
  str_contains "/" name = false ->
  basename (dir +:+ "/" +:+ name) = name.
Proof.
  intros Hname. induction dir as [|c dir IH].
  - rewrite append_nil. change ("/" +:+ name) with (String "/" name).
    cbn [basename]. now rewrite Hname.
  - rewrite append_cons. cbn [basename].
    assert (Hslash : str_contains "/" (dir +:+ "/" +:+ name) = true).
    { apply str_contains_spec. now exists dir, name. }
    now rewrite Hslash.
Qed.

(** X14: a menu document that has no [restaurant_name] entry is recorded
    under the last component of its file's path: every removal record of the
    file at [dir/name] carries the string [name] as its restaurant, which is
    what the kids DELETE will then compare [restaurant_name] with. *)
Theorem unnamed_restaurant_is_file_name `{Python} (apply : bool)
    (dir name text : string) (d : list (string * json)) (items : list json)
    (total_removed total_kept : nat) (all_removed_items : list removal)
    (w w' : world) (acc' : nat * nat * list removal) :
  str_contains "/" name = false ->
  fs w !! (dir +:+ "/" +:+ name) = Some text ->
  json_load text = Some (JObj d) ->
  dict_lookup "restaurant_name" d = None ->
  dict_get d "items" (JArr []) = JArr items ->
  file_body apply (dir +:+ "/" +:+ name)
    (total_removed, total_kept, all_removed_items) w = (w', Ok acc') ->
  exists new : list removal,
    snd acc' = all_removed_items ++ new /\
    length new = length (removed_of items) /\
    Forall (fun record => restaurant_name record = JStr name) new.
Proof.
  intros Hname Hfile Hload Hmissing Hitems Hbody.
  pose proof (file_body_scan apply (dir +:+ "/" +:+ name) total_removed total_kept
                all_removed_items w) as Hscan.
  unfold scan_file in Hscan. rewrite Hfile in Hscan. cbn [bind_result] in Hscan.
  rewrite Hload in Hscan. cbn [bind_result py_get] in Hscan.
  rewrite Hitems in Hscan. cbn [py_len py_iter bind_result] in Hscan.
  unfold dict_get at 1 in Hscan. rewrite Hmissing, (basename_after_slash _ _ Hname) in Hscan.
  destruct (items_loop (JStr name) items [] [] all_removed_items)
    as [[[kept removed] records]|e] eqn:Hloop; cbn [bind_result] in Hscan.
  - destruct Hscan as [out Hrun]. rewrite Hrun in Hbody. injection Hbody as _ <-.
    pose proof (items_loop_classifiable _ _ _ _ _ _ Hloop) as Hall.
    rewrite (items_loop_ok _ _ _ _ _ Hall) in Hloop. cbn [app] in Hloop.
    injection Hloop as _ _ <-.
    exists (records_of (JStr name) items). cbn [snd]. split; [reflexivity|].
    pose proof (removed_records (JStr name) items Hall) as Hrec. split.
    + symmetry. exact (Forall2_length _ _ _ Hrec).
    + clear -Hrec. induction Hrec as [|entry record l l' (_ & _ & Hr & _) _ IH];
        constructor; assumption.
  - rewrite Hscan in Hbody. discriminate.
Qed.

Lemma unnamed_restaurant_is_file_name_witness :
  str_contains "/" "unnamed_raw.json" = false /\
  snd (@file_body second_python true ("data/jsons" +:+ "/" +:+ "unnamed_raw.json")
         (0, 0, []) second_world)
  = Ok (1, 0, [Removal (JStr "unnamed_raw.json") (JStr "Side of Fries")
                 "low_cal (80 cal)"]) /\
  exists new : list removal,
    [Removal (JStr "unnamed_raw.json") (JStr "Side of Fries") "low_cal (80 cal)"]
    = [] ++ new /\
    Forall (fun record => restaurant_name record = JStr "unnamed_raw.json") new.
Proof.
  assert (Hname : str_contains "/" "unnamed_raw.json" = false) by reflexivity.
  assert (Hsnd :
    snd (@file_body second_python true ("data/jsons" +:+ "/" +:+ "unnamed_raw.json")
           (0, 0, []) second_world)
    = Ok (1, 0, [Removal (JStr "unnamed_raw.json") (JStr "Side of Fries")
                   "low_cal (80 cal)"])) by (vm_compute; reflexivity).
  split; [exact Hname|]. split; [exact Hsnd|].
  assert (Hfile : fs second_world !! ("data/jsons" +:+ "/" +:+ "unnamed_raw.json")
                  = Some "unnamed"%string) by (vm_compute; reflexivity).
  destruct (@unnamed_restaurant_is_file_name second_python true "data/jsons"
              "unnamed_raw.json" "unnamed" [("items", JArr [JObj fries])]
              [JObj fries] 0 0 [] second_world _ _ Hname Hfile eq_refl eq_refl
              eq_refl (pair_of_snd _ _ Hsnd))
    as (new & Hnew & _ & Hall).
  exists new. split; [exact Hnew | exact Hall].
Defined.

(** ** The SQL stage, the printed totals and the documents *)

(** X15: when the file loop has come to its end and a record picked for the
    kids DELETE has a restaurant name or an item name that is not a string (a
    menu whose [restaurant_name] is a number, say), the run ends in
    [AttributeError] while it prints the SQL: the disk stays as the file loop
    left it, so in apply mode the menu files are already rewritten and the SQL
    file is not written. *)
Theorem sql_stage_fails_on_non_string_names `{Python} (argv files : list string)
    (sql_file : string) (w w1 : world) (total_removed total_kept : nat)
    (all_removed_items : list removal) :
  files_loop (APPLY argv) files (0, 0, [])
    (World (fs w) (stdout w ++ header_lines argv files))
  = (w1, Ok (total_removed, total_kept, all_removed_items)) ->
  Exists (fun record => ~ record_ok record) (kids_of all_removed_items) ->
  exists out : list string,
    process_files argv files sql_file w
    = (World (fs w1) (stdout w1 ++ out), Raise AttributeError).
Proof.
  intros Hloop Hbad. rewrite process_files_run. unfold bind. rewrite Hloop.
  apply report_raise. now apply conditions_loop_bad_record.
Qed.

Lemma sql_stage_fails_on_non_string_names_witness :
  snd (@process_files third_python ["clean-menu-data.py"; "--apply"]%string
         [numbered_path] sql_path third_world) = Raise AttributeError /\
  fs (fst (@process_files third_python ["clean-menu-data.py"; "--apply"]%string
             [numbered_path] sql_path third_world)) !! numbered_path
  = Some "numbered, kept"%string /\
  fs (fst (@process_files third_python ["clean-menu-data.py"; "--apply"]%string
             [numbered_path] sql_path third_world)) !! sql_path = None.
Proof.
  assert (Hloop :
    @files_loop third_python (APPLY ["clean-menu-data.py"; "--apply"]%string)
      [numbered_path] (0, 0, [])
      (World (fs third_world)
         (stdout third_world
          ++ header_lines ["clean-menu-data.py"; "--apply"]%string [numbered_path]))
    = (fst (@files_loop third_python
              (APPLY ["clean-menu-data.py"; "--apply"]%string) [numbered_path]
              (0, 0, [])
              (World (fs third_world)
                 (stdout third_world
                  ++ header_lines ["clean-menu-data.py"; "--apply"]%string
                       [numbered_path]))),
       Ok (1, 1, [Removal (JInt 7) (JStr "Kid's Burger") "kids_item (cal=350)"]))).
  { apply pair_of_snd. vm_compute. reflexivity. }
  assert (Hbad : Exists (fun record => ~ record_ok record)
                   (kids_of [Removal (JInt 7) (JStr "Kid's Burger")
                               "kids_item (cal=350)"])).
  { apply Exists_cons_hd. intros (restaurant & item_name & Hr & _).
    discriminate Hr. }
  destruct (@sql_stage_fails_on_non_string_names third_python _ _ sql_path _ _ _ _ _
              Hloop Hbad) as [out Hrun].
  rewrite Hrun. cbn [fst snd fs]. split; [reflexivity|].
  split; vm_compute; reflexivity.
Defined.

Section PrintedFacts.
Context `{Python}.

Lemma print_summary_totals (apply : bool) (total_removed total_kept : nat) :
  exists before after : list string,
    forall w : world,
      print_summary apply total_removed total_kept w =
      (World (fs w)
         (stdout w ++ before
          ++ ["Total items removed: " +:+ nat_str total_removed;
              "Total items kept:    " +:+ nat_str total_kept] ++ after),
       Ok tt).
Proof.
  unfold print_summary. exists [nl +:+ rule; "SUMMARY"%string; rule].
  destruct apply; cbn [negb];
    (eexists; intros w; run_io; rewrite <- !app_assoc; cbn [app]; reflexivity).
Qed.

End PrintedFacts.

(** X16: a completed run over distinct files has printed the line of the
    total removed directly followed by the line of the total kept, and the two
    numbers add up to the number of items in all the files. *)
Theorem printed_totals_count_every_item `{Python} (argv files : list string)
    (sql_file : string) (w w' : world) :
  NoDup files ->
  process_files argv files sql_file w = (w', Ok tt) ->
  exists (total_removed total_kept : nat) (before after : list string),
    stdout w'
    = before ++ ["Total items removed: " +:+ nat_str total_removed;
                 "Total items kept:    " +:+ nat_str total_kept] ++ after /\
    total_removed + total_kept = length (flat_map (menu_elements (fs w)) files).
Proof.
  intros Hnd. rewrite process_files_run.
  set (w1 := World (fs w) (stdout w ++ header_lines argv files)).
  pose proof (files_loop_scan (APPLY argv) files (0, 0, []) w1 Hnd) as Hscan.
  change (fs w1) with (fs w) in Hscan. unfold bind.
  destruct (files_loop (APPLY argv) files (0, 0, []) w1)
    as [w2 [[[total_removed total_kept] all_removed_items]|e]]; [|discriminate].
  cbn [snd] in Hscan. symmetry in Hscan. apply scan_files_totals in Hscan.
  destruct Hscan as [Hsum _].
  destruct (conditions_loop (kids_of all_removed_items) []) as [conditions|e] eqn:Hc.
  - destruct (print_summary_totals (APPLY argv) total_removed total_kept)
      as (before & after & Hprint).
    destruct (print_sql_run (kids_of all_removed_items) conditions
                (World (fs w2) (stdout w2 ++ before
                   ++ ["Total items removed: " +:+ nat_str total_removed;
                       "Total items kept:    " +:+ nat_str total_kept] ++ after))
                Hc) as (console & Hsql & _).
    unfold report. unfold bind at 1. rewrite Hprint.
    unfold bind at 1. rewrite Hsql. cbn [fs stdout].
    unfold bind at 1. rewrite (write_sql_run _ _ _ conditions _ Hc).
    unfold print. cbn [fs stdout]. intros [= <-].
    exists total_removed, total_kept, (stdout w2 ++ before),
      (after ++ console ++ [glyph_page +:+ " SQL also saved to: cleanup_menu_items.sql"]).
    cbn [stdout]. split; [|exact Hsum].
    rewrite <- !app_assoc. reflexivity.
  - destruct (report_raise (APPLY argv) sql_file total_removed total_kept
                all_removed_items e w2 Hc) as (out & ->).
    discriminate.
Qed.

Lemma printed_totals_count_every_item_witness :
  NoDup [joes_path] /\
  @process_files example_python ["clean-menu-data.py"]%string [joes_path] sql_path
    example_world
  = (fst (@process_files example_python ["clean-menu-data.py"]%string [joes_path]
            sql_path example_world), Ok tt) /\
  exists (total_removed total_kept : nat) (before after : list string),
    stdout (fst (@process_files example_python ["clean-menu-data.py"]%string
                   [joes_path] sql_path example_world))
    = before ++ ["Total items removed: " +:+ nat_str total_removed;
                 "Total items kept:    " +:+ nat_str total_kept] ++ after /\
    total_removed + total_kept = 3.
Proof.
  assert (Hnd : NoDup [joes_path]) by apply NoDup_singleton.
  assert (Hrun :
    @process_files example_python ["clean-menu-data.py"]%string [joes_path] sql_path
      example_world
    = (fst (@process_files example_python ["clean-menu-data.py"]%string [joes_path]
              sql_path example_world), Ok tt)).
  { apply pair_of_snd. vm_compute. reflexivity. }
  split; [exact Hnd|]. split; [exact Hrun|].
  destruct (@printed_totals_count_every_item example_python _ _ _ _ _ Hnd Hrun)
    as (total_removed & total_kept & before & after & Hout & Hsum).
  exists total_removed, total_kept, before, after. split; [exact Hout|].
  rewrite Hsum. reflexivity.
Defined.

(** X17: a file whose document is not a dict (a bare list of items, a string,
    a number) is no menu: the loop body raises [AttributeError] at the first
    [get], before anything is printed or written. *)
Theorem odd_documents `{Python} (apply : bool) (filepath text : string)
    (data : json) (acc : nat * nat * list removal) (w : world) :
  fs w !! filepath = Some text ->
  json_load text = Some data ->
  (forall d : list (string * json), data <> JObj d) ->
  file_body apply filepath acc w = (w, Raise AttributeError).
Proof.
  intros Hfile Hload Hodd.
  destruct acc as [[total_removed total_kept] all_removed_items].
  pose proof (file_body_scan apply filepath total_removed total_kept
                all_removed_items w) as Hbody.
  unfold scan_file in Hbody. rewrite Hfile in Hbody. cbn [bind_result] in Hbody.
  rewrite Hload in Hbody.
  destruct data as [| | | | |d]; cbn [bind_result py_get] in Hbody;
    try exact Hbody.
  now destruct (Hodd d).
Qed.

Lemma odd_documents_witness :
  fs third_world !! bare_list_path = Some "bare list"%string /\
  @json_load third_python "bare list" = Some (JArr [JObj burger]) /\
  (forall d : list (string * json), JArr [JObj burger] <> JObj d) /\
  @file_body third_python true bare_list_path (0, 0, []) third_world
  = (third_world, Raise AttributeError).
Proof.
  assert (Hfile : fs third_world !! bare_list_path = Some "bare list"%string)
    by (vm_compute; reflexivity).
  assert (Hload : @json_load third_python "bare list" = Some (JArr [JObj burger]))
    by reflexivity.
  assert (Hodd : forall d : list (string * json), JArr [JObj burger] <> JObj d)
    by (intros d; discriminate).
  split; [exact Hfile|]. split; [exact Hload|]. split; [exact Hodd|].
  exact (@odd_documents third_python true bare_list_path "bare list"
           (JArr [JObj burger]) (0, 0, []) third_world Hfile Hload Hodd).
Defined.

Section KeepsFacts.
Context `{Python}.

Lemma keeps_files_ret {A : Type} (a : A) : keeps_files (ret a).
Proof. intros w p Hp. exact Hp. Qed.

Lemma keeps_files_lift {A : Type} (r : result A) : keeps_files (lift r).
Proof. intros w p Hp. exact Hp. Qed.

Lemma keeps_files_print (s : string) : keeps_files (print s).
Proof. intros w p Hp. exact Hp. Qed.

Lemma keeps_files_read_text (path : string) : keeps_files (read_text path).
Proof. intros w p Hp. unfold read_text. now destruct (fs w !! path). Qed.

Lemma keeps_files_open_w (path : string) : keeps_files (open_w path).
Proof.
  intros w p Hp. cbn. destruct (decide (path = p)) as [->|Hne].
  - rewrite lookup_insert_eq. now eexists.
  - now rewrite lookup_insert_ne.
Qed.

Lemma keeps_files_f_write (path s : string) : keeps_files (f_write path s).
Proof.
  intros w p Hp. cbn. destruct (decide (path = p)) as [->|Hne].
  - rewrite lookup_insert_eq. now eexists.
  - now rewrite lookup_insert_ne.
Qed.

Lemma keeps_files_bind {A B : Type} (m : M A) (k : A -> M B) :
  keeps_files m -> (forall a, keeps_files (k a)) -> keeps_files (bind m k).
Proof.
  intros Hm Hk w p Hp. unfold bind. specialize (Hm w p Hp).
  destruct (m w) as [w' [a|e]]; cbn [fst] in *; [now apply Hk | exact Hm].
Qed.

End KeepsFacts.

Ltac keeps_steps :=
  repeat first
    [ apply keeps_files_bind; [|intros ?]
    | apply keeps_files_ret | apply keeps_files_lift | apply keeps_files_print
    | apply keeps_files_read_text | apply keeps_files_open_w
    | apply keeps_files_f_write
    | match goal with
      | |- keeps_files (match ?x with _ => _ end) => is_var x; destruct x
      end ].

Section KeepsRun.
Context `{Python}.

Lemma keeps_files_print_removed (removed : list (json * string)) :
  keeps_files (print_removed removed).
Proof.
  induction removed as [|[item why] removed IH]; cbn [print_removed].
  - apply keeps_files_ret.
  - keeps_steps. exact IH.
Qed.

Lemma keeps_files_file_body (apply : bool) (filepath : string)
    (acc : nat * nat * list removal) :
  keeps_files (file_body apply filepath acc).
Proof.
  destruct acc as [[total_removed total_kept] all_removed_items].
  unfold file_body. keeps_steps.
  - match goal with
    | |- keeps_files (if nonempty ?r then _ else _) => destruct (nonempty r)
    end; keeps_steps. apply keeps_files_print_removed.
  - match goal with
    | |- keeps_files (if ?c then _ else _) => destruct c
    end; keeps_steps.
Qed.

Lemma keeps_files_files_loop (apply : bool) (files : list string)
    (acc : nat * nat * list removal) :
  keeps_files (files_loop apply files acc).
Proof.
  revert acc. induction files as [|filepath files IH]; intros acc.
  - apply keeps_files_ret.
  - cbn [files_loop].
    apply keeps_files_bind; [apply keeps_files_file_body | exact IH].
Qed.

Lemma keeps_files_report (apply : bool) (sql_file : string)
    (acc : nat * nat * list removal) :
  keeps_files (report apply sql_file acc).
Proof.
  destruct acc as [[total_removed total_kept] all_removed_items].
  unfold report, print_summary, print_sql, write_sql.
  keeps_steps;
    try (destruct apply; cbn [negb]; keeps_steps);
    try (destruct (nonempty (kids_of all_removed_items)); keeps_steps).
Qed.

End KeepsRun.

(** X18: a run deletes nothing: every file that was on the disk before the
    run is still on the disk after it, in either mode and whether the run
    completes or aborts. *)
Theorem run_deletes_no_file `{Python} (argv files : list string)
    (sql_file : string) (w : world) (p text : string) :
  fs w !! p = Some text ->
  exists text' : string,
    fs (fst (process_files argv files sql_file w)) !! p = Some text'.
Proof.
  intros Hp.
  assert (Hkeeps : keeps_files (process_files argv files sql_file)).
  { unfold process_files. keeps_steps.
    - apply keeps_files_files_loop.
    - apply keeps_files_report. }
  destruct (Hkeeps w p) as [text' Hp']; [now exists text | now exists text'].
Qed.

Lemma run_deletes_no_file_witness :
  fs example_world !! diner_path = Some "diner"%string /\
  exists text' : string,
    fs (fst (@process_files example_python ["clean-menu-data.py"; "--apply"]%string
               [joes_path; diner_path] sql_path example_world)) !! diner_path
    = Some text'.
Proof.
  assert (Hp : fs example_world !! diner_path = Some "diner"%string)
    by (vm_compute; reflexivity).
  split; [exact Hp|].
  exact (@run_deletes_no_file example_python _ _ _ _ _ _ Hp).
Defined.
